(** * pyflagser: the CMake build orchestration of [setup.py]

    A shallow embedding of the two classes of [setup.py], [CMakeExtension]
    and [CMakeBuild], and the properties of the build they drive.

    Conventions of the embedding.
    - Python [str] is Rocq's [string], one [ascii] per character: the
      character classes below are those of Python for code points under 256.
    - [os.environ] and the [env] dictionary are [gmap string string].
    - The file system is the set of paths that exist ([gset string]).
    - [CMakeBuild]'s methods read and change the process state and raise
      exceptions: they live in a state-and-exception monad [M] over [World].
      An exception does not roll the state back, as in Python.
    - External programs ([cmake], [git]) are an oracle [spawn]; every
      attempt to start one is appended to the log of the world.
    - [os.mkdir] and [os.makedirs] can raise although [os.path.exists]
      denied the path: what the file system answers is an oracle too. *)

From Stdlib Require Import ZArith Ascii String List Lia.
From stdpp Require Import gmap strings list.

Local Open Scope Z_scope.

(** ** Python built-ins on [str] *)

Module Py.

(** [s.startswith(p)] *)
Fixpoint startswith (s p : string) {struct p} : bool :=
  match p, s with
  | EmptyString, _ => true
  | String _ _, EmptyString => false
  | String a p', String b s' => if Ascii.eqb a b then startswith s' p' else false
  end.

(** [s.endswith(c)] for a one-character [c] *)
Fixpoint endswith_char (s : string) (c : ascii) : bool :=
  match s with
  | EmptyString => false
  | String a EmptyString => Ascii.eqb a c
  | String _ s' => endswith_char s' c
  end.

(** [c.upper()] on the ASCII letters *)
Definition upper_char (c : ascii) : ascii :=
  let n := nat_of_ascii c in
  if ((97 <=? n) && (n <=? 122))%nat then ascii_of_nat (n - 32) else c.

(** [s.upper()]; the script applies it to ['Debug'] and ['Release'] only *)
Fixpoint upper (s : string) : string :=
  match s with
  | EmptyString => EmptyString
  | String c s' => String (upper_char c) (upper s')
  end.

(** [sep.join(l)] *)
Fixpoint join (sep : string) (l : list string) : string :=
  match l with
  | [] => ""
  | [x] => x
  | x :: l' => x +:+ sep +:+ join sep l'
  end.

(** [s.split(c)] for a one-character separator: never the empty list *)
Fixpoint split (c : ascii) (s : string) : list string :=
  match s with
  | EmptyString => [""]
  | String a s' =>
      if Ascii.eqb a c then "" :: split c s'
      else match split c s' with
           | h :: t => String a h :: t
           | [] => [String a ""]
           end
  end.

(** [c.isspace()], the class [\s] of [re] on [str] patterns, below 256:
    TAB..CR, FS..US, space, NEL and NBSP *)
Definition isspace (c : ascii) : bool :=
  let n := nat_of_ascii c in
  ((9 <=? n) && (n <=? 13) || (28 <=? n) && (n <=? 32)
   || (n =? 133) || (n =? 160))%nat.

(** the class [\d] of [re] below 256: the ten ASCII digits *)
Definition isdigit (c : ascii) : bool :=
  let n := nat_of_ascii c in ((48 <=? n) && (n <=? 57))%nat.

(** [int(s)] for a string of ASCII digits, most significant first *)
Fixpoint int_acc (acc : N) (s : string) : option N :=
  match s with
  | EmptyString => Some acc
  | String c s' =>
      if isdigit c
      then int_acc (10 * acc + (N_of_ascii c - 48))%N s'
      else None
  end.

Definition int (s : string) : option N :=
  match s with
  | EmptyString => None
  | _ => int_acc 0%N s
  end.

(** the longest prefix of [s] whose characters all satisfy [p], and the rest *)
Fixpoint span (p : ascii -> bool) (s : string) : string * string :=
  match s with
  | EmptyString => ("", "")
  | String c s' =>
      if p c then let '(a, b) := span p s' in (String c a, b)
      else ("", s)
  end.

(** [s[n:]] *)
Fixpoint drop (n : nat) (s : string) : string :=
  match n, s with
  | O, _ => s
  | S _, EmptyString => EmptyString
  | S n', String _ s' => drop n' s'
  end.

End Py.

(** ** The two regular expressions of the script *)

Module Re.

(** [-arch (\S+)] anchored at the start of [s]: the group, and what
    follows the match.  [\S+] is greedy and nothing follows it in the
    pattern, so the group is the longest run of non-space characters. *)
Definition match_arch (s : string) : option (string * string) :=
  if Py.startswith s "-arch " then
    match Py.span (fun c => negb (Py.isspace c)) (Py.drop 6 s) with
    | (EmptyString, _) => None
    | (g, rest) => Some (g, rest)
    end
  else None.

(** the scan of [re.findall]: at each position try the pattern; after a
    match go on behind it, otherwise one character further.  [n] bounds
    the number of positions tried. *)
Fixpoint findall_arch_from (n : nat) (s : string) : list string :=
  match n with
  | O => []
  | S n' =>
      match match_arch s with
      | Some (g, rest) => g :: findall_arch_from n' rest
      | None =>
          match s with
          | EmptyString => []
          | String _ s' => findall_arch_from n' s'
          end
      end
  end.

(** [re.findall(r"-arch (\S+)", s)] *)
Definition findall_arch (s : string) : list string :=
  findall_arch_from (S (String.length s)) s.

Definition digit_or_dot (c : ascii) : bool :=
  Py.isdigit c || Ascii.eqb c "."%char.

(** [version\s*([\d.]+)] anchored at the start of [s]: group 1.  The
    classes [\s] and [[\d.]] are disjoint, so the greedy [\s*] never has
    to give a character back. *)
Definition match_version (s : string) : option string :=
  if Py.startswith s "version" then
    let '(_, s1) := Py.span Py.isspace (Py.drop 7 s) in
    match Py.span digit_or_dot s1 with
    | (EmptyString, _) => None
    | (g, _) => Some g
    end
  else None.

(** [re.search(r'version\s*([\d.]+)', s)]: the leftmost match, [None]
    when there is none; the result is group 1 of the match object *)
Fixpoint search_version (s : string) : option string :=
  match match_version s with
  | Some g => Some g
  | None =>
      match s with
      | EmptyString => None
      | String _ s' => search_version s'
      end
  end.

End Re.

(** ** [os.path]

    The script reaches the path functions through [os.path], which is
    [posixpath] or [ntpath] according to the host.  [abspath] and [join]
    read nothing but the current directory, passed explicitly. *)

Class OsPath := {
  os_path_abspath : string -> string -> string;  (* cwd, path *)
  os_path_join : string -> list string -> string;
  os_path_dirname : string -> string
}.

(** [posixpath], after the functions of CPython's [Lib/posixpath.py] *)
Module posixpath.

Definition sep : ascii := "/"%char.

Definition isabs (s : string) : bool := Py.startswith s "/".

(** one round of the loop of [join]: [path] and the next component [b] *)
Definition join1 (path b : string) : string :=
  if Py.startswith b "/" then b
  else if String.eqb path "" || Py.endswith_char path sep then path +:+ b
  else path +:+ "/" +:+ b.

Definition join (a : string) (p : list string) : string :=
  fold_left join1 p a.

(** [p[:p.rfind('/') + 1]] *)
Fixpoint head_of (p : string) : string :=
  match p with
  | EmptyString => ""
  | String c p' =>
      let h := head_of p' in
      if negb (String.eqb h "") || Ascii.eqb c sep then String c h else ""
  end.

Fixpoint all_sep (s : string) : bool :=
  match s with
  | EmptyString => true
  | String c s' => Ascii.eqb c sep && all_sep s'
  end.

(** [s.rstrip('/')] *)
Fixpoint rstrip_sep (s : string) : string :=
  match s with
  | EmptyString => ""
  | String c s' =>
      let r := rstrip_sep s' in
      if String.eqb r "" && Ascii.eqb c sep then "" else String c r
  end.

Definition dirname (p : string) : string :=
  let head := head_of p in
  if negb (String.eqb head "") && negb (all_sep head)
  then rstrip_sep head else head.

(** 0, 1 or 2: POSIX keeps exactly two leading slashes apart *)
Definition initial_slashes (path : string) : nat :=
  if Py.startswith path "/" then
    if Py.startswith path "//" && negb (Py.startswith path "///")
    then 2%nat else 1%nat
  else 0%nat.

(** one round of the loop of [normpath] over the components *)
Definition norm_step (initial : nat) (new_comps : list string)
           (comp : string) : list string :=
  if String.eqb comp "" || String.eqb comp "." then new_comps
  else if negb (String.eqb comp "..")
          || (Nat.eqb initial 0 && bool_decide (new_comps = []))
          || (negb (bool_decide (new_comps = []))
              && String.eqb (List.last new_comps "") "..")
       then new_comps ++ [comp]
       else removelast new_comps.

Fixpoint slashes (n : nat) : string :=
  match n with
  | O => ""
  | S n' => String sep (slashes n')
  end.

Definition normpath (path : string) : string :=
  if String.eqb path "" then "."
  else
    let initial := initial_slashes path in
    let comps := fold_left (norm_step initial) (Py.split sep path) [] in
    let path := slashes initial +:+ Py.join "/" comps in
    if String.eqb path "" then "." else path.

Definition abspath (cwd path : string) : string :=
  normpath (if isabs path then path else join cwd [path]).

End posixpath.

#[export] Instance posix_os_path : OsPath := {|
  os_path_abspath := posixpath.abspath;
  os_path_join := posixpath.join;
  os_path_dirname := posixpath.dirname
|}.

(** ** [packaging.version]

    Modelled from the [packaging] library for the strings the script can
    hand to it, made of digits and dots: such a string is a version when it
    is a dot-separated sequence of non-empty digit groups (the release),
    and [parse] raises [InvalidVersion] otherwise, as the library does
    since its release 22.  Two versions compare as their releases without
    trailing zeros, as tuples.  The numbers are unbounded: the limit that
    [int] may put on the digits of a group is left out. *)
Module version.

Definition Version := list N.

Fixpoint ints (l : list string) : option (list N) :=
  match l with
  | [] => Some []
  | x :: l' =>
      match Py.int x, ints l' with
      | Some n, Some ns => Some (n :: ns)
      | _, _ => None
      end
  end.

Definition parse (s : string) : option Version :=
  ints (Py.split "."%char s).

(** the release without its trailing zeros *)
Fixpoint strip_zeros (r : list N) : list N :=
  match r with
  | [] => []
  | n :: r' =>
      match strip_zeros r', n with
      | [], 0%N => []
      | t, _ => n :: t
      end
  end.

(** tuple order *)
Fixpoint tuple_lt (a b : list N) : bool :=
  match a, b with
  | _, [] => false
  | [], _ :: _ => true
  | x :: a', y :: b' =>
      if (x <? y)%N then true
      else if (y <? x)%N then false
      else tuple_lt a' b'
  end.

Definition lt (a b : Version) : bool :=
  tuple_lt (strip_zeros a) (strip_zeros b).

End version.

(** ** The data of the script *)

(** [class CMakeExtension(Extension)]: the fields the build reads *)
Record CMakeExtension := {
  name : string;
  sources : list string;
  sourcedir : string
}.

(** what the script reads of the interpreter and the platform:
    [platform.system()], [sys.platform], [sys.executable] and the width of
    a pointer, from which CPython derives [sys.maxsize] *)
Record Host := {
  platform_system : string;
  sys_platform : string;
  sys_executable : string;
  pointer_bits : Z
}.

(** [sys.maxsize], the largest [Py_ssize_t] *)
Definition sys_maxsize (host : Host) : Z := 2 ^ (pointer_bits host - 1) - 1.

(** [self] in [CMakeBuild]: the attributes and methods of setuptools'
    [build_ext] command that the script uses *)
Record build_ext := {
  debug : bool;
  build_temp : string;
  extensions : list CMakeExtension;
  get_ext_fullpath : string -> string;
  get_version : string            (* self.distribution.get_version() *)
}.

(** the exceptions that can leave the script *)
Inductive exn : Type :=
| OSError
| CalledProcessError (returncode : Z) (cmd : list string)
| RuntimeError (msg : string)
| AttributeError
| UnicodeDecodeError
| InvalidVersion (s : string)
| FileExistsError (path : string).

(** one call of [subprocess]: [cwd] and [env] are [None] when the keyword
    is not given, and the child then inherits the parent's *)
Record Call := {
  argv : list string;
  cwd : option string;
  env : option (gmap string string)
}.

(** an attempt to run a program: [None] when it could not be started *)
Record Event := {
  call : Call;
  returncode : option Z
}.

Record World := {
  environ : gmap string string;
  getcwd : string;
  fs : gset string;
  log : list Event
}.

(** what an external program does: it cannot be started, or it exits with
    a status, its standard output and the file system it leaves *)
Inductive Outcome :=
| NotStarted
| Exited (status : Z) (out : string) (fs' : gset string).

(** the world after an attempt to run [c] that left the file system [fs'] *)
Definition after_call (w : World) (c : Call) (rc : option Z)
           (fs' : gset string) : World :=
  {| environ := environ w; getcwd := getcwd w; fs := fs';
     log := log w ++ [{| call := c; returncode := rc |}] |}.

(** the world with the directory [p] created *)
Definition with_dir (p : string) (w : World) : World :=
  {| environ := environ w; getcwd := getcwd w; fs := {[p]} ∪ fs w;
     log := log w |}.

(** the environment a child really runs in *)
Definition effective_env (w : World) (c : Call) : gmap string string :=
  default (environ w) (env c).

(** ** The monad of the methods *)

Definition M (A : Type) : Type := World -> (exn + A) * World.

#[export] Instance M_ret : MRet M := fun A (x : A) w => (inr x, w).

#[export] Instance M_bind : MBind M := fun A B (f : A -> M B) (m : M A) w =>
  match m w with
  | (inr x, w') => f x w'
  | (inl e, w') => (inl e, w')
  end.

Definition raise {A} (e : exn) : M A := fun w => (inl e, w).

(** [try: m except ...: h] *)
Definition try_except {A} (m : M A) (h : exn -> M A) : M A := fun w =>
  match m w with
  | (inl e, w') => h e w'
  | r => r
  end.

Definition read {A} (f : World -> A) : M A := fun w => (inr (f w), w).

(** [for x in l: body(x)] *)
Fixpoint for_each {A} (l : list A) (body : A -> M unit) : M unit :=
  match l with
  | [] => mret tt
  | x :: l' => body x ;; for_each l' body
  end.

(** [os.path.exists(p)] *)
Definition exists_ (p : string) : M bool :=
  read (fun w => bool_decide (p ∈ fs w)).

(** what the file system answers when a directory is to be made at a path
    that [os.path.exists] denies: the directory is made; or the path is a
    symbolic link that leads nowhere, and the call raises
    [FileExistsError]; or the call raises another [OSError] (no
    permission, no parent directory, a full disk) *)
Inductive Mkdir := Made | LinkInTheWay | Refused.

(** the exception of a directory that is not made *)
Definition mkdir_error (p : string) (answer : Mkdir) : option exn :=
  match answer with
  | Made => None
  | LinkInTheWay => Some (FileExistsError p)
  | Refused => Some OSError
  end.

(** making the directory [p], [os_answer] being the answer of the file
    system: a path that exists raises [FileExistsError]; a failure leaves
    the file system as it was *)
Definition make_directory (os_answer : string -> World -> Mkdir)
           (p : string) : M unit := fun w =>
  if bool_decide (p ∈ fs w) then (inl (FileExistsError p), w)
  else match mkdir_error p (os_answer p w) with
       | Some e => (inl e, w)
       | None => (inr tt, with_dir p w)
       end.

(** ** The pure parts of [build_extension] *)

(** [cfg = 'Debug' if self.debug else 'Release'] *)
Definition cfg (debug : bool) : string := if debug then "Debug" else "Release".

(** lines 110-131: the two argument lists, [cmake_args] and [build_args] *)
Definition args (host : Host) (environ : gmap string string)
           (debug : bool) (extdir : string) : list string * list string :=
  let cmake_args := ["-DCMAKE_LIBRARY_OUTPUT_DIRECTORY=" +:+ extdir;
                     "-DPYTHON_EXECUTABLE=" +:+ sys_executable host] in
  let build_args := ["--config"; cfg debug] in
  let '(cmake_args, build_args) :=
    if String.eqb (platform_system host) "Windows" then
      let cmake_args :=
        cmake_args ++ ["-DCMAKE_LIBRARY_OUTPUT_DIRECTORY_"
                       +:+ Py.upper (cfg debug) +:+ "=" +:+ extdir] in
      let cmake_args :=
        if sys_maxsize host >? 2 ^ 32
        then cmake_args ++ ["-A"; "x64"] else cmake_args in
      (cmake_args, build_args ++ ["--"; "/m"])
    else
      (cmake_args ++ ["-DCMAKE_BUILD_TYPE=" +:+ cfg debug],
       build_args ++ ["--"; "-j2"]) in
  let cmake_args :=
    if Py.startswith (sys_platform host) "darwin" then
      let archs := Re.findall_arch (default "" (environ !! "ARCHFLAGS")) in
      if bool_decide (archs = []) then cmake_args
      else cmake_args ++ ["-DCMAKE_OSX_ARCHITECTURES=" +:+ Py.join ";" archs]
    else cmake_args in
  (cmake_args, build_args).

Definition cmake_args (host : Host) (environ : gmap string string)
           (debug : bool) (extdir : string) : list string :=
  fst (args host environ debug extdir).

Definition build_args (host : Host) (environ : gmap string string)
           (debug : bool) (extdir : string) : list string :=
  snd (args host environ debug extdir).

(** the one-character string made of a double quote *)
Definition dquote : string := String (ascii_of_nat 34) "".

(** a backslash and a double quote, as the format string spells them *)
Definition escaped_quote : string := String (ascii_of_nat 92) dquote.

(** lines 133-135: [env], the copy of [os.environ] in which [CXXFLAGS] is
    its old value (or the empty string), a space, [-DVERSION_INFO=] and the
    version between two escaped quotes *)
Definition build_env (environ : gmap string string) (version : string)
  : gmap string string :=
  let env := environ in
  <["CXXFLAGS" := default "" (env !! "CXXFLAGS") +:+ " -DVERSION_INFO="
                  +:+ escaped_quote +:+ version +:+ escaped_quote]> env.

(** ** The two classes *)

Section CMakeBuild.

Context {os_path : OsPath}.

(** the interpreter and platform the script runs on *)
Variable host : Host.

(** the behaviour of the external programs: what a call does in a world *)
Variable spawn : Call -> World -> Outcome.

(** the answers of the file system to [os.mkdir] and to [os.makedirs] *)
Variable os_mkdir : string -> World -> Mkdir.
Variable os_makedirs : string -> World -> Mkdir.

(** [bytes.decode()]: [None] stands for [UnicodeDecodeError] *)
Variable decode : string -> option string.

(** [os.mkdir(p)] *)
Definition mkdir (p : string) : M unit := make_directory os_mkdir p.

(** [os.makedirs(p)]; of the directories it makes, the ancestors of [p]
    are not tracked *)
Definition makedirs (p : string) : M unit := make_directory os_makedirs p.

(** [CMakeExtension.__init__(self, name, sourcedir='')]; [os.path.abspath]
    reads the current directory [cwd] *)
Definition CMakeExtension_init (cwd : string) (name : string)
           (sourcedir : string) : CMakeExtension :=
  {| name := name; sources := []; sourcedir := os_path_abspath cwd sourcedir |}.

(** starting a program: the attempt is logged, the file system is the one
    the program leaves *)
Definition popen (c : Call) : M Outcome := fun w =>
  let o := spawn c w in
  (inr o,
   match o with
   | NotStarted => after_call w c None (fs w)
   | Exited status _ fs' => after_call w c (Some status) fs'
   end).

(** [subprocess.check_call] *)
Definition check_call (c : Call) : M unit :=
  o ← popen c;
  match o with
  | NotStarted => raise OSError
  | Exited status _ _ =>
      if status =? 0 then mret tt
      else raise (CalledProcessError status (argv c))
  end.

(** [subprocess.check_output] *)
Definition check_output (c : Call) : M string :=
  o ← popen c;
  match o with
  | NotStarted => raise OSError
  | Exited status out _ =>
      if status =? 0 then mret out
      else raise (CalledProcessError status (argv c))
  end.

(** the two calls of lines 101-105 *)
Definition clone_call (dir_pybind11 : string) : Call :=
  {| argv := ["git"; "clone"; "https://github.com/pybind/pybind11.git";
              dir_pybind11];
     cwd := None; env := None |}.

Definition submodule_call : Call :=
  {| argv := ["git"; "submodule"; "update"; "--init"; "--recursive"];
     cwd := None; env := None |}.

(** [CMakeBuild.install_dependencies]: [return 0] when the directory is
    there, and falling off the end ([None]) after the fetch *)
Definition install_dependencies (self : build_ext) : M (option Z) :=
  dir_start ← read getcwd;
  let dir_pybind11 := os_path_join dir_start ["pybind11"] in
  present ← exists_ dir_pybind11;
  if present : bool then mret (Some 0)
  else
    mkdir dir_pybind11;;
    check_call (clone_call dir_pybind11);;
    check_call submodule_call;;
    mret None.

(** lines 108-109 *)
Definition extdir (cwd : string) (self : build_ext) (ext : CMakeExtension)
  : string :=
  os_path_abspath cwd
    (os_path_join (os_path_dirname (get_ext_fullpath self (name ext)))
                  ["pyflagser"; "modules"]).

(** the configure call of line 138 *)
Definition configure_call (w : World) (self : build_ext)
           (ext : CMakeExtension) : Call :=
  {| argv := ["cmake"; sourcedir ext]
             ++ cmake_args host (environ w) (debug self)
                           (extdir (getcwd w) self ext);
     cwd := Some (build_temp self);
     env := Some (build_env (environ w) (get_version self)) |}.

(** the compile call of line 140: no [env] keyword *)
Definition compile_call (w : World) (self : build_ext)
           (ext : CMakeExtension) : Call :=
  {| argv := ["cmake"; "--build"; "."]
             ++ build_args host (environ w) (debug self)
                           (extdir (getcwd w) self ext);
     cwd := Some (build_temp self);
     env := None |}.

(** [CMakeBuild.build_extension] *)
Definition build_extension (self : build_ext) (ext : CMakeExtension)
  : M unit :=
  configure ← read (fun w => configure_call w self ext);
  compile ← read (fun w => compile_call w self ext);
  present ← exists_ (build_temp self);
  (if present : bool then mret tt else makedirs (build_temp self));;
  check_call configure;;
  check_call compile.

(** the message of the first [RuntimeError] of [run] *)
Definition missing_message (self : build_ext) : string :=
  "CMake must be installed to build the " +:+ " following extensions: "
  +:+ Py.join " , " (map name (extensions self)).

Definition too_old_message : string := "CMake >= 3.1.0 is required on Windows".

(** lines 84-88: the version check, made on Windows only *)
Definition check_version (out : string) : M unit :=
  if String.eqb (platform_system host) "Windows" then
    match decode out with
    | None => raise UnicodeDecodeError
    | Some text =>
        match Re.search_version text with
        | None => raise AttributeError      (* [None.group] *)
        | Some g =>
            match version.parse g with
            | None => raise (InvalidVersion g)
            | Some cmake_version =>
                match version.parse "3.1.0" with
                | None => raise (InvalidVersion "3.1.0")
                | Some minimum =>
                    if version.lt cmake_version minimum
                    then raise (RuntimeError too_old_message)
                    else mret tt
                end
            end
        end
    end
  else mret tt.

(** the version query of line 78 *)
Definition version_call : Call :=
  {| argv := ["cmake"; "--version"]; cwd := None; env := None |}.

(** [CMakeBuild.run] *)
Definition run (self : build_ext) : M unit :=
  out ← try_except (check_output version_call)
        (fun e => match e with
                  | OSError => raise (RuntimeError (missing_message self))
                  | _ => raise e
                  end);
  check_version out;;
  install_dependencies self;;
  for_each (extensions self) (build_extension self).

End CMakeBuild.

(** ** Vocabulary of the properties *)

(** what [cmake --build] hands to the native build tool: the arguments
    behind the first [--] *)
Fixpoint native_flags (l : list string) : list string :=
  match l with
  | [] => []
  | a :: l' => if String.eqb a "--" then l' else native_flags l'
  end.

(** an architecture token in [s]: [-arch], one space and a character that
    is not white space *)
Definition has_arch_token (s : string) : Prop :=
  exists pre c post,
    s = pre +:+ "-arch " +:+ String c post /\ Py.isspace c = false.

(** the exception, if there is one, with which the script fails to have
    the directory [p]: none when [p] exists, where nothing is to be made,
    or when it is made *)
Definition directory_error (os_answer : string -> World -> Mkdir)
           (p : string) (w : World) : option exn :=
  if bool_decide (p ∈ fs w) then None else mkdir_error p (os_answer p w).

(** the world in which [build_extension] starts its two programs: the
    build directory is there *)
Definition prepared (self : build_ext) (w : World) : World :=
  if bool_decide (build_temp self ∈ fs w) then w
  else with_dir (build_temp self) w.

(** what [run] does once the version check has passed *)
Definition build_all `{OsPath} (host : Host)
           (spawn : Call -> World -> Outcome)
           (os_mkdir os_makedirs : string -> World -> Mkdir)
           (self : build_ext) : M unit :=
  install_dependencies spawn os_mkdir self;;
  for_each (extensions self) (build_extension host spawn os_makedirs self).

(** the events that building the targets [exts] in turn, from the world
    [w], may add to the log: for each target its configure attempt, then
    its compile attempt if configure exited 0, then the next target if the
    compile exited 0 as well; nothing more once the build directory of a
    target cannot be made *)
Inductive build_log `{OsPath} (host : Host) (w : World) (self : build_ext)
  : list CMakeExtension -> list Event -> Prop :=
| build_log_nil : build_log host w self [] []
| build_log_no_directory ext exts : build_log host w self (ext :: exts) []
| build_log_configure_failed ext exts rc :
    rc <> Some 0 ->
    build_log host w self (ext :: exts)
      [{| call := configure_call host w self ext; returncode := rc |}]
| build_log_compile_failed ext exts rc :
    rc <> Some 0 ->
    build_log host w self (ext :: exts)
      [{| call := configure_call host w self ext; returncode := Some 0 |};
       {| call := compile_call host w self ext; returncode := rc |}]
| build_log_built ext exts l :
    build_log host w self exts l ->
    build_log host w self (ext :: exts)
      ({| call := configure_call host w self ext; returncode := Some 0 |}
       :: {| call := compile_call host w self ext; returncode := Some 0 |}
       :: l).

(** the exit status of a program that ran *)
Definition status_of (o : Outcome) : option Z :=
  match o with
  | NotStarted => None
  | Exited status _ _ => Some status
  end.

(** the events a run adds to the log *)
Definition is_fetch (e : Event) : bool :=
  bool_decide (take 2 (argv (call e)) = ["git"; "clone"]).

Definition fetches (l : list Event) : nat :=
  length (List.filter is_fetch l).

(** ** Sample hosts, worlds and programs *)

Definition linux_host : Host :=
  {| platform_system := "Linux"; sys_platform := "linux";
     sys_executable := "/usr/bin/python3"; pointer_bits := 64 |}.

Definition macos_host : Host :=
  {| platform_system := "Darwin"; sys_platform := "darwin";
     sys_executable := "/usr/bin/python3"; pointer_bits := 64 |}.

Definition windows_host (bits : Z) : Host :=
  {| platform_system := "Windows"; sys_platform := "win32";
     sys_executable := "C:\Python\python.exe"; pointer_bits := bits |}.

Definition sample_world : World :=
  {| environ := ∅; getcwd := "/repo"; fs := {["/repo"]}; log := [] |}.

Definition sample_build (cwd : string) : build_ext :=
  {| debug := false; build_temp := "build/temp";
     extensions := [CMakeExtension_init cwd "pyflagser" ""];
     get_ext_fullpath := fun n => "build/lib/" +:+ n +:+ ".so";
     get_version := "0.4.5" |}.

(** every program runs, prints [out] and exits with [status] *)
Definition spawn_exit (status : Z) (out : string) : Call -> World -> Outcome :=
  fun _ w => Exited status out (fs w).

(** no program can be started *)
Definition spawn_none : Call -> World -> Outcome := fun _ _ => NotStarted.

(** every directory can be made *)
Definition mkdir_made : string -> World -> Mkdir := fun _ _ => Made.

(** every path is a symbolic link that leads nowhere *)
Definition mkdir_link : string -> World -> Mkdir := fun _ _ => LinkInTheWay.

Fixpoint is_ascii (s : string) : bool :=
  match s with
  | EmptyString => true
  | String c s' => (nat_of_ascii c <? 128)%nat && is_ascii s'
  end.

(** a decoder for ASCII output: the bytes are the characters *)
Definition decode_ascii (s : string) : option string :=
  if is_ascii s then Some s else None.

(** the target of the end-to-end scenario *)
Definition pyflagser_ext : CMakeExtension :=
  {| name := "pyflagser"; sources := []; sourcedir := "/repo" |}.

(** what the specification says of the prepared environment: every program
    that [build_extension] starts runs in it *)
Definition prepared_env_for_all `{OsPath} (host : Host)
           (spawn : Call -> World -> Outcome)
           (os_makedirs : string -> World -> Mkdir) (self : build_ext)
           (ext : CMakeExtension) (w : World) : Prop :=
  let w' := snd (build_extension host spawn os_makedirs self ext w) in
  Forall (fun e => effective_env w' (call e)
                   = build_env (environ w) (get_version self))
         (drop (length (log w)) (log w')).

(** the exceptions of the file system and of [subprocess] *)
Definition is_process_error (e : exn) : Prop :=
  match e with
  | OSError | CalledProcessError _ _ | FileExistsError _ => True
  | _ => False
  end.

(** ** Vocabulary of the further properties *)

(** [subprocess] cannot start a program in a working directory that does
    not exist: the call raises [FileNotFoundError], an [OSError] *)
Definition cwd_checked (spawn : Call -> World -> Outcome)
  : Call -> World -> Outcome :=
  fun c w =>
    match cwd c with
    | Some d => if bool_decide (d ∈ fs w) then spawn c w else NotStarted
    | None => spawn c w
    end.

(** every character of [s] satisfies [p] *)
Fixpoint all_chars (p : ascii -> bool) (s : string) : bool :=
  match s with
  | EmptyString => true
  | String c s' => p c && all_chars p s'
  end.

(** an architecture name: not empty, without white space *)
Definition is_arch (a : string) : bool :=
  negb (String.eqb a "") && all_chars (fun c => negb (Py.isspace c)) a.

(** [ARCHFLAGS] as the build tools of macOS write it: [-arch] and a name
    for each architecture, separated by one space *)
Definition archflags (archs : list string) : string :=
  Py.join " " (map (fun a => "-arch " +:+ a) archs).

(** the events of targets that are configured and compiled with success *)
Definition built_log `{OsPath} (host : Host) (w : World) (self : build_ext)
           (exts : list CMakeExtension) : list Event :=
  flat_map (fun ext =>
              [{| call := configure_call host w self ext;
                  returncode := Some 0 |};
               {| call := compile_call host w self ext;
                  returncode := Some 0 |}]) exts.

(** the events of a fetch of the dependency into [dir] that succeeds *)
Definition fetched_log (dir : string) : list Event :=
  [{| call := clone_call dir; returncode := Some 0 |};
   {| call := submodule_call; returncode := Some 0 |}].

(** * Properties *)

(** ** Strings *)

Lemma app_cons (a : ascii) (s t : string) :
  String a s +:+ t = String a (s +:+ t).
Proof. reflexivity. Qed.

Lemma app_nil_l (t : string) : "" +:+ t = t.
Proof. reflexivity. Qed.

Lemma startswith_app (p s : string) : Py.startswith (p +:+ s) p = true.
Proof.
  induction p as [|a p IH]; [reflexivity|].
  change (Py.startswith (String a (p +:+ s)) (String a p) = true).
  cbn [Py.startswith]. now rewrite Ascii.eqb_refl.
Qed.

Lemma startswith_spec (s p : string) :
  Py.startswith s p = true <-> exists t, s = p +:+ t.
Proof.
  split.
  - revert s. induction p as [|a p IH]; intros s Hs.
    + now exists s.
    + destruct s as [|b s]; [discriminate|]. cbn in Hs.
      destruct (Ascii.eqb a b) eqn:Hab; [|discriminate].
      apply Ascii.eqb_eq in Hab as ->.
      destruct (IH _ Hs) as [t ->]. now exists t.
  - intros [t ->]. apply startswith_app.
Qed.

Lemma string_length_app (s t : string) :
  String.length (s +:+ t) = (String.length s + String.length t)%nat.
Proof.
  induction s as [|a s IH]; [reflexivity|].
  rewrite app_cons. cbn [String.length]. now rewrite IH.
Qed.

Lemma elem_of_existsb (a : string) (l : list string) :
  a ∈ l <-> existsb (String.eqb a) l = true.
Proof.
  rewrite existsb_exists, list_elem_of_In. split.
  - intros H. exists a. split; [exact H | apply String.eqb_refl].
  - intros (x & Hx & Heq). apply String.eqb_eq in Heq. now subst.
Qed.

(** ** The argument lists *)

Ltac split_args host environ :=
  destruct (String.eqb (platform_system host) "Windows") eqn:Hwin;
  destruct (sys_maxsize host >? 2 ^ 32) eqn:Hmax;
  destruct (Py.startswith (sys_platform host) "darwin") eqn:Hdarwin;
  destruct (bool_decide
              (Re.findall_arch (default "" (environ !! "ARCHFLAGS")) = []))
    eqn:Harchs.

Lemma args_unfold (host : Host) (environ : gmap string string)
      (debug : bool) (extdir : string) :
  args host environ debug extdir =
  (let base := ["-DCMAKE_LIBRARY_OUTPUT_DIRECTORY=" +:+ extdir;
                "-DPYTHON_EXECUTABLE=" +:+ sys_executable host] in
   let platform :=
     if String.eqb (platform_system host) "Windows"
     then ["-DCMAKE_LIBRARY_OUTPUT_DIRECTORY_"
           +:+ Py.upper (cfg debug) +:+ "=" +:+ extdir]
          ++ (if sys_maxsize host >? 2 ^ 32 then ["-A"; "x64"] else [])
     else ["-DCMAKE_BUILD_TYPE=" +:+ cfg debug] in
   let archs := Re.findall_arch (default "" (environ !! "ARCHFLAGS")) in
   let osx :=
     if Py.startswith (sys_platform host) "darwin" && negb (bool_decide (archs = []))
     then ["-DCMAKE_OSX_ARCHITECTURES=" +:+ Py.join ";" archs] else [] in
   (base ++ platform ++ osx,
    ["--config"; cfg debug; "--";
     if String.eqb (platform_system host) "Windows" then "/m" else "-j2"])).
Proof.
  unfold args. split_args host environ; reflexivity.
Qed.

(** C1: the mode is [Debug] exactly when the debug flag is set and
    [Release] otherwise; the compile phase gets it behind [--config], and
    the configure arguments carry it, as the build type off Windows and,
    uppercased, in the name of the output-directory directive on Windows. *)
Theorem C1_configuration_mode (host : Host) (environ : gmap string string)
        (debug : bool) (extdir : string) :
  (cfg debug = "Debug" <-> debug = true)
  /\ (cfg debug = "Release" <-> debug = false)
  /\ (exists trailing,
        build_args host environ debug extdir
        = ["--config"; cfg debug] ++ trailing)
  /\ (if String.eqb (platform_system host) "Windows"
      then ("-DCMAKE_LIBRARY_OUTPUT_DIRECTORY_" +:+ Py.upper (cfg debug)
            +:+ "=" +:+ extdir) ∈ cmake_args host environ debug extdir
           /\ Py.upper (cfg debug) = (if debug then "DEBUG" else "RELEASE")
      else ("-DCMAKE_BUILD_TYPE=" +:+ cfg debug)
           ∈ cmake_args host environ debug extdir).
Proof.
  unfold build_args, cmake_args. rewrite args_unfold. cbn zeta.
  split; [|split; [|split]].
  - destruct debug; split; intro; (reflexivity || discriminate).
  - destruct debug; split; intro; (reflexivity || discriminate).
  - eexists. reflexivity.
  - cbn [fst]. destruct (String.eqb (platform_system host) "Windows").
    + split; [set_solver | destruct debug; reflexivity].
    + set_solver.
Qed.

(** a pointer of a whole number of bytes: [sys.maxsize] is above [2**32]
    exactly when the pointer is wider than 32 bits *)
Lemma maxsize_pointer_bits (host : Host) :
  (8 | pointer_bits host) ->
  (sys_maxsize host >? 2 ^ 32) = true <-> 32 < pointer_bits host.
Proof.
  intros [k Hk]. unfold sys_maxsize. rewrite Hk, Z.gtb_ltb, Z.ltb_lt.
  split; intros H.
  - destruct (Z_lt_le_dec 32 (k * 8)) as [Hlt|Hle]; [exact Hlt|exfalso].
    destruct (Z_lt_le_dec (k * 8 - 1) 0) as [Hneg|Hpos].
    + rewrite (Z.pow_neg_r 2 (k * 8 - 1)) in H by exact Hneg.
      change (2 ^ 32) with 4294967296 in H. lia.
    + assert (2 ^ (k * 8 - 1) <= 2 ^ 31)
        by (apply Z.pow_le_mono_r; lia).
      change (2 ^ 31) with 2147483648 in *.
      change (2 ^ 32) with 4294967296 in *. lia.
  - assert (2 ^ 39 <= 2 ^ (k * 8 - 1))
      by (apply Z.pow_le_mono_r; lia).
    change (2 ^ 39) with 549755813888 in *.
    change (2 ^ 32) with 4294967296 in *. lia.
Qed.

(** C2: on Windows the two common directives are followed by one
    output-directory directive whose name ends in the uppercased mode,
    then by the selector [-A x64] exactly when [sys.maxsize] is above
    [2**32], that is when the pointer is wider than 32 bits; nothing names
    a build type there.  Off Windows the two common directives are
    followed by exactly one build-type directive, with the mode as its
    value; there is no mode-suffixed output-directory directive and no
    architecture selector.  On both, only the architecture directive of
    macOS can follow. *)
Theorem C2_platform_directives (host : Host) (environ : gmap string string)
        (debug : bool) (extdir : string) :
  let cmake_args := cmake_args host environ debug extdir in
  let osx := List.filter
               (fun a => Py.startswith a "-DCMAKE_OSX_ARCHITECTURES=")
               cmake_args in
  (platform_system host = "Windows" ->
     cmake_args
     = ["-DCMAKE_LIBRARY_OUTPUT_DIRECTORY=" +:+ extdir;
        "-DPYTHON_EXECUTABLE=" +:+ sys_executable host;
        "-DCMAKE_LIBRARY_OUTPUT_DIRECTORY_" +:+ Py.upper (cfg debug)
        +:+ "=" +:+ extdir]
       ++ (if sys_maxsize host >? 2 ^ 32 then ["-A"; "x64"] else [])
       ++ osx
     /\ List.filter
          (fun a => Py.startswith a "-DCMAKE_LIBRARY_OUTPUT_DIRECTORY_")
          cmake_args
        = ["-DCMAKE_LIBRARY_OUTPUT_DIRECTORY_" +:+ Py.upper (cfg debug)
           +:+ "=" +:+ extdir]
     /\ ("-A" ∈ cmake_args <-> sys_maxsize host > 2 ^ 32)
     /\ ("x64" ∈ cmake_args <-> sys_maxsize host > 2 ^ 32)
     /\ ((8 | pointer_bits host) ->
         ("-A" ∈ cmake_args <-> 32 < pointer_bits host))
     /\ List.filter (fun a => Py.startswith a "-DCMAKE_BUILD_TYPE=")
                    cmake_args = [])
  /\ (platform_system host <> "Windows" ->
     cmake_args
     = ["-DCMAKE_LIBRARY_OUTPUT_DIRECTORY=" +:+ extdir;
        "-DPYTHON_EXECUTABLE=" +:+ sys_executable host;
        "-DCMAKE_BUILD_TYPE=" +:+ cfg debug] ++ osx
     /\ List.filter (fun a => Py.startswith a "-DCMAKE_BUILD_TYPE=") cmake_args
        = ["-DCMAKE_BUILD_TYPE=" +:+ cfg debug]
     /\ List.filter
          (fun a => Py.startswith a "-DCMAKE_LIBRARY_OUTPUT_DIRECTORY_")
          cmake_args = []
     /\ ("-A" ∉ cmake_args)
     /\ ("x64" ∉ cmake_args)).
Proof.
  cbn zeta. unfold cmake_args. rewrite args_unfold. cbn zeta. cbn [fst].
  set (osx := if Py.startswith (sys_platform host) "darwin" && _
              then _ else _).
  assert (Hosx : osx = [] \/ exists v, osx = ["-DCMAKE_OSX_ARCHITECTURES=" +:+ v]).
  { subst osx. destruct (_ && _); [right; eexists; reflexivity | now left]. }
  clearbody osx.
  split; intros Hsys.
  - apply String.eqb_eq in Hsys. rewrite Hsys.
    assert (HA : forall P : Prop,
               (sys_maxsize host >? 2 ^ 32) = true <-> P ->
               "-A" ∈ ["-DCMAKE_LIBRARY_OUTPUT_DIRECTORY=" +:+ extdir;
                        "-DPYTHON_EXECUTABLE=" +:+ sys_executable host]
                       ++ (["-DCMAKE_LIBRARY_OUTPUT_DIRECTORY_"
                            +:+ Py.upper (cfg debug) +:+ "=" +:+ extdir]
                           ++ (if sys_maxsize host >? 2 ^ 32
                               then ["-A"; "x64"] else [])) ++ osx
               <-> P).
    { intros P <-. rewrite elem_of_existsb.
      destruct (sys_maxsize host >? 2 ^ 32);
        destruct Hosx as [-> | [v ->]]; split; (reflexivity || discriminate). }
    assert (Hgt : (sys_maxsize host >? 2 ^ 32) = true
                  <-> sys_maxsize host > 2 ^ 32)
      by (rewrite Z.gtb_ltb, Z.ltb_lt; lia).
    split; [|split; [|split; [|split; [|split]]]].
    + destruct (sys_maxsize host >? 2 ^ 32);
        destruct Hosx as [-> | [v ->]]; reflexivity.
    + destruct (sys_maxsize host >? 2 ^ 32);
        destruct Hosx as [-> | [v ->]]; reflexivity.
    + apply HA, Hgt.
    + rewrite <- Hgt, elem_of_existsb.
      destruct (sys_maxsize host >? 2 ^ 32);
        destruct Hosx as [-> | [v ->]]; split; (reflexivity || discriminate).
    + intros Hdiv. apply HA, maxsize_pointer_bits, Hdiv.
    + destruct (sys_maxsize host >? 2 ^ 32);
        destruct Hosx as [-> | [v ->]]; reflexivity.
  - apply String.eqb_neq in Hsys. rewrite Hsys.
    unfold not. rewrite !elem_of_existsb.
    destruct Hosx as [-> | [v ->]];
      (split; [reflexivity|];
       split; [reflexivity | split; [reflexivity | split; discriminate]]).
Qed.

(** C3: the end-to-end scenario.  For the target [pyflagser] with source
    directory [/repo], a release build on a host that is neither Windows
    nor macOS, the configure arguments are the library-output directive,
    the interpreter directive and [-DCMAKE_BUILD_TYPE=Release], in this
    order and nothing else, after [cmake] and the source directory; the
    compile command ends in the separator [--] and the one flag [-j2]. *)
Theorem C3_end_to_end `{OsPath} (host : Host) (self : build_ext) (w : World) :
  platform_system host <> "Windows" ->
  Py.startswith (sys_platform host) "darwin" = false ->
  debug self = false ->
  let ext := pyflagser_ext in
  let outdir := extdir (getcwd w) self ext in
  cmake_args host (environ w) (debug self) outdir
  = ["-DCMAKE_LIBRARY_OUTPUT_DIRECTORY=" +:+ outdir;
     "-DPYTHON_EXECUTABLE=" +:+ sys_executable host;
     "-DCMAKE_BUILD_TYPE=Release"]
  /\ argv (configure_call host w self ext)
     = ["cmake"; "/repo";
        "-DCMAKE_LIBRARY_OUTPUT_DIRECTORY=" +:+ outdir;
        "-DPYTHON_EXECUTABLE=" +:+ sys_executable host;
        "-DCMAKE_BUILD_TYPE=Release"]
  /\ argv (compile_call host w self ext)
     = ["cmake"; "--build"; "."; "--config"; "Release"; "--"; "-j2"]
  /\ native_flags (argv (compile_call host w self ext)) = ["-j2"].
Proof.
  intros Hsys Hdarwin Hdebug ext outdir.
  apply String.eqb_neq in Hsys.
  unfold configure_call, compile_call, cmake_args, build_args.
  fold outdir. rewrite args_unfold, Hsys, Hdarwin, Hdebug.
  repeat split.
Qed.

(** ** The scan for architecture tokens *)

Lemma span_nil (p : ascii -> bool) (s : string) :
  fst (Py.span p s) = ""
  <-> s = "" \/ exists c t, s = String c t /\ p c = false.
Proof.
  destruct s as [|c t]; cbn.
  - split; [now left | reflexivity].
  - destruct (p c) eqn:Hc.
    + destruct (Py.span p t) as [a b]. cbn. split; [discriminate|].
      intros [H | (c' & t' & H & Hc')]; [discriminate|].
      injection H as -> ->. congruence.
    + cbn. split; [|reflexivity]. intros _. right. now exists c, t.
Qed.

(** the pattern matches at the start of [s] exactly when [s] starts with a
    token *)
Lemma match_arch_None (s : string) :
  Re.match_arch s = None
  <-> ~ exists c post, s = "-arch " +:+ String c post /\ Py.isspace c = false.
Proof.
  unfold Re.match_arch.
  destruct (Py.startswith s "-arch ") eqn:Hs.
  - apply startswith_spec in Hs as [t ->].
    change (Py.drop 6 ("-arch " +:+ t)) with t.
    pose proof (span_nil (fun c => negb (Py.isspace c)) t) as Hspan.
    destruct (Py.span (fun c => negb (Py.isspace c)) t) as [g rest].
    cbn [fst] in Hspan. split.
    + intros Hnone (c & post & Heq & Hc).
      assert (g = "") as Hg by (destruct g; [reflexivity | discriminate]).
      apply Hspan in Hg as [-> | (c' & t' & -> & Hc')].
      * discriminate.
      * injection Heq as -> ->. rewrite Hc in Hc'. discriminate.
    + intros Hno. destruct g as [|a g]; [reflexivity | exfalso].
      destruct t as [|c t'].
      * assert ((String a g : string) = "") as Habs
            by (apply Hspan; now left). discriminate.
      * destruct (Py.isspace c) eqn:Hc.
        -- assert ((String a g : string) = "") as Habs.
           { apply Hspan. right. exists c, t'. now rewrite Hc. }
           discriminate.
        -- apply Hno. now exists c, t'.
  - split; [|reflexivity]. intros _ (c & post & -> & _).
    rewrite startswith_app in Hs. discriminate.
Qed.

Lemma match_arch_Some (s g rest : string) :
  Re.match_arch s = Some (g, rest) ->
  exists c post, s = "-arch " +:+ String c post /\ Py.isspace c = false.
Proof.
  unfold Re.match_arch.
  destruct (Py.startswith s "-arch ") eqn:Hs; [|discriminate].
  apply startswith_spec in Hs as [t ->].
  change (Py.drop 6 ("-arch " +:+ t)) with t.
  destruct t as [|c t']; [discriminate|].
  cbn [Py.span]. destruct (Py.isspace c) eqn:Hc; [discriminate|].
  intros _. now exists c, t'.
Qed.

Lemma has_arch_token_nil : ~ has_arch_token "".
Proof. intros (pre & c & post & H & _). destruct pre; discriminate. Qed.

Lemma has_arch_token_cons (a : ascii) (s : string) :
  Re.match_arch (String a s) = None ->
  has_arch_token (String a s) <-> has_arch_token s.
Proof.
  intros Hnone. split.
  - intros (pre & c & post & Heq & Hc). destruct pre as [|b pre].
    + exfalso. apply match_arch_None in Hnone. apply Hnone.
      exists c, post. now rewrite Heq.
    + rewrite app_cons in Heq. injection Heq as -> ->. now exists pre, c, post.
  - intros (pre & c & post & -> & Hc). now exists (String a pre), c, post.
Qed.

(** the scan finds nothing exactly when the string has no token, however
    many positions it may try beyond the length of the string *)
Lemma findall_arch_from_nil (n : nat) (s : string) :
  (String.length s < n)%nat ->
  Re.findall_arch_from n s = [] <-> ~ has_arch_token s.
Proof.
  revert s. induction n as [|n IH]; intros s Hn; [lia|].
  cbn [Re.findall_arch_from].
  destruct (Re.match_arch s) as [[g rest]|] eqn:Hm.
  - split; [discriminate|]. intros Hno. exfalso. apply Hno.
    destruct (match_arch_Some _ _ _ Hm) as (c & post & -> & Hc).
    now exists "", c, post.
  - destruct s as [|a s].
    + split; [intros _; apply has_arch_token_nil | reflexivity].
    + rewrite (has_arch_token_cons _ _ Hm). apply IH. cbn in Hn. lia.
Qed.

Lemma findall_arch_nil (s : string) :
  Re.findall_arch s = [] <-> ~ has_arch_token s.
Proof. apply findall_arch_from_nil. lia. Qed.

(** the bound on the positions tried is never reached *)
Lemma match_arch_rest (s g rest : string) :
  Re.match_arch s = Some (g, rest) ->
  (String.length rest < String.length s)%nat.
Proof.
  unfold Re.match_arch.
  destruct (Py.startswith s "-arch ") eqn:Hs; [|discriminate].
  apply startswith_spec in Hs as [t ->].
  change (Py.drop 6 ("-arch " +:+ t)) with t.
  assert (Hspan : forall p u, (String.length (snd (Py.span p u))
                               <= String.length u)%nat).
  { intros p u. induction u as [|c u IHu]; cbn; [lia|].
    destruct (p c); [|cbn; lia].
    destruct (Py.span p u); cbn in *. lia. }
  specialize (Hspan (fun c => negb (Py.isspace c)) t).
  destruct (Py.span (fun c => negb (Py.isspace c)) t) as [g' rest'].
  destruct g'; [discriminate|]. intros [= <- <-].
  change (String.length ("-arch " +:+ t)) with (6 + String.length t)%nat.
  cbn [snd] in Hspan. lia.
Qed.

Lemma findall_arch_from_enough (n m : nat) (s : string) :
  (String.length s < n)%nat -> (String.length s < m)%nat ->
  Re.findall_arch_from n s = Re.findall_arch_from m s.
Proof.
  revert m s. induction n as [|n IH]; intros m s Hn Hm; [lia|].
  destruct m as [|m]; [lia|]. cbn [Re.findall_arch_from].
  destruct (Re.match_arch s) as [[g rest]|] eqn:Hmatch.
  - apply match_arch_rest in Hmatch. f_equal. apply IH; lia.
  - destruct s as [|a s]; [reflexivity|]. cbn in Hn, Hm. apply IH; lia.
Qed.

(** C4: on macOS, with [ARCHFLAGS] set to [-arch x86_64 -arch arm64], the
    configure arguments are those of a build without [ARCHFLAGS] followed
    by the single architecture directive with the value [x86_64;arm64];
    with [ARCHFLAGS] unset, empty or without an architecture token there
    is no architecture directive. *)
Theorem C4_macos_architectures (host : Host) (environ : gmap string string)
        (debug : bool) (extdir : string) :
  Py.startswith (sys_platform host) "darwin" = true ->
  let osx :=
    List.filter (fun a => Py.startswith a "-DCMAKE_OSX_ARCHITECTURES=")
                (cmake_args host environ debug extdir) in
  (environ !! "ARCHFLAGS" = Some "-arch x86_64 -arch arm64" ->
     osx = ["-DCMAKE_OSX_ARCHITECTURES=x86_64;arm64"]
     /\ cmake_args host environ debug extdir
        = cmake_args host (delete "ARCHFLAGS" environ) debug extdir
          ++ ["-DCMAKE_OSX_ARCHITECTURES=x86_64;arm64"])
  /\ (environ !! "ARCHFLAGS" = None -> osx = [])
  /\ (environ !! "ARCHFLAGS" = Some "" -> osx = [])
  /\ (forall v, environ !! "ARCHFLAGS" = Some v ->
                ~ has_arch_token v -> osx = []).
Proof.
  intros Hdarwin. cbn zeta. unfold cmake_args. rewrite !args_unfold.
  cbn zeta. cbn [fst]. rewrite Hdarwin, lookup_delete_eq.
  assert (Hnone : forall v, Re.findall_arch v = [] ->
     List.filter (fun a => Py.startswith a "-DCMAKE_OSX_ARCHITECTURES=")
       (["-DCMAKE_LIBRARY_OUTPUT_DIRECTORY=" +:+ extdir;
         "-DPYTHON_EXECUTABLE=" +:+ sys_executable host]
        ++ (if String.eqb (platform_system host) "Windows"
            then ["-DCMAKE_LIBRARY_OUTPUT_DIRECTORY_"
                  +:+ Py.upper (cfg debug) +:+ "=" +:+ extdir]
                 ++ (if sys_maxsize host >? 2 ^ 32 then ["-A"; "x64"] else [])
            else ["-DCMAKE_BUILD_TYPE=" +:+ cfg debug])
        ++ (if true && negb (bool_decide (Re.findall_arch v = []))
            then ["-DCMAKE_OSX_ARCHITECTURES="
                  +:+ Py.join ";" (Re.findall_arch v)]
            else [])) = []).
  { intros v ->.
    destruct (String.eqb (platform_system host) "Windows");
      destruct (sys_maxsize host >? 2 ^ 32); reflexivity. }
  split; [|split; [|split]].
  - intros ->. cbn [default].
    change (Re.findall_arch "-arch x86_64 -arch arm64")
      with ["x86_64"; "arm64"].
    change (Re.findall_arch "") with (@nil string).
    destruct (String.eqb (platform_system host) "Windows");
      destruct (sys_maxsize host >? 2 ^ 32); split; reflexivity.
  - intros ->. now apply Hnone.
  - intros ->. now apply Hnone.
  - intros v -> Hv. now apply Hnone, findall_arch_nil.
Qed.

(** ** Running the methods *)

Section Runs.

Context {os_path : OsPath}.
Variable host : Host.
Variable spawn : Call -> World -> Outcome.
Variable os_mkdir : string -> World -> Mkdir.
Variable os_makedirs : string -> World -> Mkdir.

Lemma check_call_run (c : Call) (w : World) :
  check_call spawn c w =
  match spawn c w with
  | NotStarted => (inl OSError, after_call w c None (fs w))
  | Exited status _ fs' =>
      (if status =? 0 then inr tt
       else inl (CalledProcessError status (argv c)),
       after_call w c (Some status) fs')
  end.
Proof.
  unfold check_call, popen, mbind, M_bind.
  destruct (spawn c w) as [|status out fs']; [reflexivity|].
  destruct (status =? 0); reflexivity.
Qed.

Lemma check_output_run (c : Call) (w : World) :
  check_output spawn c w =
  match spawn c w with
  | NotStarted => (inl OSError, after_call w c None (fs w))
  | Exited status out fs' =>
      (if status =? 0 then inr out
       else inl (CalledProcessError status (argv c)),
       after_call w c (Some status) fs')
  end.
Proof.
  unfold check_output, popen, mbind, M_bind.
  destruct (spawn c w) as [|status out fs']; [reflexivity|].
  destruct (status =? 0); reflexivity.
Qed.

Lemma prepared_environ (self : build_ext) (w : World) :
  environ (prepared self w) = environ w
  /\ getcwd (prepared self w) = getcwd w
  /\ log (prepared self w) = log w.
Proof. unfold prepared. now destruct (bool_decide _). Qed.

(** [build_extension], step by step *)
Lemma build_extension_run (self : build_ext) (ext : CMakeExtension)
      (w : World) :
  let configure := configure_call host w self ext in
  let compile := compile_call host w self ext in
  build_extension host spawn os_makedirs self ext w =
  match directory_error os_makedirs (build_temp self) w with
  | Some e => (inl e, w)
  | None =>
      match spawn configure (prepared self w) with
      | NotStarted =>
          (inl OSError,
           after_call (prepared self w) configure None (fs (prepared self w)))
      | Exited status _ fs1 =>
          let w1 := after_call (prepared self w) configure (Some status) fs1 in
          if status =? 0 then check_call spawn compile w1
          else (inl (CalledProcessError status (argv configure)), w1)
      end
  end.
Proof.
  cbn zeta.
  unfold build_extension, directory_error, prepared, exists_, read, makedirs,
    make_directory.
  unfold mbind, M_bind.
  destruct (bool_decide (build_temp self ∈ fs w)) eqn:Hdir; cbn.
  - rewrite check_call_run.
    destruct (spawn _ w) as [|status out fs1]; [reflexivity|].
    destruct (status =? 0); reflexivity.
  - rewrite Hdir.
    destruct (mkdir_error (build_temp self) (os_makedirs (build_temp self) w))
      as [e|]; [reflexivity|].
    rewrite check_call_run.
    destruct (spawn _ (with_dir _ w)) as [|status out fs1]; [reflexivity|].
    destruct (status =? 0); reflexivity.
Qed.

(** what [build_extension] adds to the log *)
Lemma build_extension_log (self : build_ext) (ext : CMakeExtension)
      (w : World) :
  let configure := configure_call host w self ext in
  let compile := compile_call host w self ext in
  let result := build_extension host spawn os_makedirs self ext w in
  let rc := status_of (spawn configure (prepared self w)) in
  match directory_error os_makedirs (build_temp self) w with
  | Some e => result = (inl e, w)
  | None =>
      exists rest,
        log (snd result)
        = log w ++ {| call := configure; returncode := rc |} :: rest
        /\ (rc = Some 0 ->
            exists rc', rest = [{| call := compile; returncode := rc' |}]
                        /\ (rc' = Some 0 <-> fst result = inr tt))
        /\ (forall status, rc = Some status -> status <> 0 ->
            rest = []
            /\ fst result = inl (CalledProcessError status (argv configure)))
        /\ (rc = None -> rest = [] /\ fst result = inl OSError)
  end.
Proof.
  cbn zeta. rewrite build_extension_run. cbn zeta.
  destruct (directory_error os_makedirs (build_temp self) w) as [e|];
    [reflexivity|].
  destruct (prepared_environ self w) as (_ & _ & Hlog).
  destruct (spawn (configure_call host w self ext) (prepared self w))
    as [|status out fs1] eqn:Hconf; cbn [status_of].
  - exists []. cbn. rewrite Hlog. repeat split; congruence.
  - destruct (status =? 0) eqn:Hst.
    + apply Z.eqb_eq in Hst as ->. rewrite check_call_run.
      destruct (spawn (compile_call host w self ext) _)
        as [|status2 out2 fs2].
      * eexists. cbn. rewrite Hlog, <- app_assoc. split; [reflexivity|].
        split; [|split; [congruence | discriminate]].
        intros _. eexists. split; [reflexivity|]. split; discriminate.
      * eexists. cbn. rewrite Hlog, <- app_assoc. split; [reflexivity|].
        split; [|split; [congruence | discriminate]].
        intros _. eexists. split; [reflexivity|].
        destruct (status2 =? 0) eqn:Hst2.
        -- apply Z.eqb_eq in Hst2 as ->. now split.
        -- apply Z.eqb_neq in Hst2. split; [congruence | discriminate].
    + apply Z.eqb_neq in Hst. exists []. cbn. rewrite Hlog.
      split; [reflexivity|]. split; [congruence|].
      split; [|discriminate]. intros ? [= <-] _. now split.
Qed.

(** *** The process environment is never written *)

Lemma check_call_environ (c : Call) (w : World) :
  environ (snd (check_call spawn c w)) = environ w
  /\ getcwd (snd (check_call spawn c w)) = getcwd w.
Proof.
  rewrite check_call_run. destruct (spawn c w); [now split|].
  destruct (_ =? 0); now split.
Qed.

Lemma build_extension_environ (self : build_ext) (ext : CMakeExtension)
      (w : World) :
  environ (snd (build_extension host spawn os_makedirs self ext w)) = environ w
  /\ getcwd (snd (build_extension host spawn os_makedirs self ext w))
     = getcwd w.
Proof.
  rewrite build_extension_run. cbn zeta.
  destruct (directory_error os_makedirs (build_temp self) w) as [e|];
    [now split|].
  destruct (prepared_environ self w) as (Henv & Hcwd & _).
  destruct (spawn _ (prepared self w)) as [|status out fs1]; [now split|].
  destruct (status =? 0); [|now split].
  destruct (check_call_environ (compile_call host w self ext)
              (after_call (prepared self w) (configure_call host w self ext)
                          (Some status) fs1)) as [-> ->].
  now split.
Qed.

Lemma calls_same_process (self : build_ext) (ext : CMakeExtension)
      (w0 w : World) :
  environ w0 = environ w -> getcwd w0 = getcwd w ->
  configure_call host w0 self ext = configure_call host w self ext
  /\ compile_call host w0 self ext = compile_call host w self ext.
Proof.
  intros Henv Hcwd. unfold configure_call, compile_call.
  now rewrite Henv, Hcwd.
Qed.

(** what the loop over the targets adds to the log *)
Lemma for_each_build_log (self : build_ext) (exts : list CMakeExtension)
      (w0 w : World) :
  environ w0 = environ w -> getcwd w0 = getcwd w ->
  exists l,
    log (snd (for_each exts (build_extension host spawn os_makedirs self) w0))
    = log w0 ++ l
    /\ build_log host w self exts l.
Proof.
  revert w0. induction exts as [|ext exts IH]; intros w0 Henv Hcwd.
  - exists []. cbn. rewrite app_nil_r. split; [reflexivity | constructor].
  - cbn [for_each]. unfold mbind, M_bind.
    pose proof (build_extension_log self ext w0) as Hstep. cbn zeta in Hstep.
    destruct (directory_error os_makedirs (build_temp self) w0) as [e0|].
    { rewrite Hstep. exists []. rewrite app_nil_r.
      split; [reflexivity | constructor]. }
    destruct Hstep as (rest & Hlog & Hok & Hfail & Hnone).
    destruct (build_extension_environ self ext w0) as [Henv1 Hcwd1].
    destruct (calls_same_process self ext w0 w Henv Hcwd) as [Hconf Hcomp].
    rewrite Hconf, Hcomp in *.
    destruct (status_of (spawn (configure_call host w self ext)
                               (prepared self w0))) as [status|] eqn:Hrc.
    + destruct (Z.eq_dec status 0) as [->|Hst].
      * destruct (Hok eq_refl) as (rc' & -> & Hrc').
        destruct (build_extension host spawn os_makedirs self ext w0)
          as [[e|[]] w1];
          cbn [fst snd] in *.
        -- eexists. split; [exact Hlog|].
           apply build_log_compile_failed. intros Heq.
           apply Hrc' in Heq. discriminate.
        -- destruct (IH w1) as (l & Hl & Hbuilt); [congruence | congruence |].
           assert (rc' = Some 0) as -> by now apply Hrc'.
           exists ({| call := configure_call host w self ext;
                      returncode := Some 0 |}
                   :: {| call := compile_call host w self ext;
                         returncode := Some 0 |} :: l).
           split; [|now apply build_log_built].
           rewrite Hl, Hlog, <- app_assoc. reflexivity.
      * destruct (Hfail status eq_refl Hst) as [-> Hresult].
        destruct (build_extension host spawn os_makedirs self ext w0)
          as [[e|[]] w1];
          cbn [fst snd] in *; [|discriminate].
        eexists. split; [exact Hlog|].
        apply build_log_configure_failed. congruence.
    + destruct (Hnone eq_refl) as [-> Hresult].
      destruct (build_extension host spawn os_makedirs self ext w0)
        as [[e|[]] w1];
        cbn [fst snd] in *; [|discriminate].
      eexists. split; [exact Hlog|].
      apply build_log_configure_failed. discriminate.
Qed.

(** C9: when the build directory cannot be made, [build_extension] ends
    with the exception of [os.makedirs] and runs no program.  Otherwise it
    first logs the configure attempt of its target.  The compile call
    follows it in the log only when configure exited with status 0; a
    nonzero status raises [CalledProcessError] for the configure command,
    and a program that cannot be started raises [OSError], with nothing
    run after it.  So the loop of [run] over the targets logs, target by
    target, a configure attempt and, behind a successful one only, the
    compile attempt. *)
Theorem C9_compile_after_configure (self : build_ext) (w : World) :
  (forall ext,
     let configure := configure_call host w self ext in
     let compile := compile_call host w self ext in
     let result := build_extension host spawn os_makedirs self ext w in
     let rc := status_of (spawn configure (prepared self w)) in
     match directory_error os_makedirs (build_temp self) w with
     | Some e => result = (inl e, w)
     | None =>
         exists rest,
           log (snd result)
           = log w ++ {| call := configure; returncode := rc |} :: rest
           /\ (rc = Some 0 ->
               exists rc', rest = [{| call := compile; returncode := rc' |}])
           /\ (forall status, rc = Some status -> status <> 0 ->
               rest = []
               /\ fst result
                  = inl (CalledProcessError status (argv configure)))
           /\ (rc = None -> rest = [] /\ fst result = inl OSError)
     end)
  /\ (forall exts,
        exists l,
          log (snd (for_each exts
                             (build_extension host spawn os_makedirs self) w))
          = log w ++ l
          /\ build_log host w self exts l).
Proof.
  split.
  - intros ext. cbn zeta.
    pose proof (build_extension_log self ext w) as Hstep. cbn zeta in Hstep.
    destruct (directory_error os_makedirs (build_temp self) w) as [e|];
      [exact Hstep|].
    destruct Hstep as (rest & Hlog & Hok & Hfail & Hnone).
    exists rest. split; [exact Hlog|]. split; [|now split].
    intros Hrc. destruct (Hok Hrc) as (rc' & Hrest & _). now exists rc'.
  - intros exts. now apply for_each_build_log.
Qed.

(** C5, as the code has it: the prepared environment is the ambient one
    with [CXXFLAGS] extended by the quoted version define, the ambient
    environment of the process is left as it was, the configure call is
    given the prepared environment, and the compile call is given none and
    runs in the ambient environment, which differs from the prepared one.
    These two calls are all that [build_extension] runs, and it runs none
    when the build directory cannot be made. *)
Theorem C5_prepared_environment (self : build_ext) (ext : CMakeExtension)
        (w : World) :
  let prepared_env := build_env (environ w) (get_version self) in
  let w' := snd (build_extension host spawn os_makedirs self ext w) in
  prepared_env !! "CXXFLAGS"
  = Some (default "" (environ w !! "CXXFLAGS") +:+ " -DVERSION_INFO="
          +:+ escaped_quote +:+ get_version self +:+ escaped_quote)
  /\ (forall k, k <> "CXXFLAGS" -> prepared_env !! k = environ w !! k)
  /\ environ w' = environ w
  /\ env (configure_call host w self ext) = Some prepared_env
  /\ effective_env w' (configure_call host w self ext) = prepared_env
  /\ env (compile_call host w self ext) = None
  /\ effective_env w' (compile_call host w self ext) = environ w
  /\ effective_env w' (compile_call host w self ext) <> prepared_env
  /\ match directory_error os_makedirs (build_temp self) w with
     | Some e => log w' = log w
     | None =>
         exists rc rest,
           log w' = log w ++ {| call := configure_call host w self ext;
                                returncode := rc |} :: rest
           /\ forall e, e ∈ rest -> call e = compile_call host w self ext
     end.
Proof.
  cbn zeta.
  assert (Hlog : match directory_error os_makedirs (build_temp self) w with
                 | Some e =>
                     log (snd (build_extension host spawn os_makedirs
                                               self ext w)) = log w
                 | None =>
                     exists rc rest,
                       log (snd (build_extension host spawn os_makedirs
                                                 self ext w))
                       = log w ++ {| call := configure_call host w self ext;
                                     returncode := rc |} :: rest
                       /\ forall e, e ∈ rest ->
                                    call e = compile_call host w self ext
                 end).
  { pose proof (build_extension_log self ext w) as Hstep. cbn zeta in Hstep.
    destruct (directory_error os_makedirs (build_temp self) w) as [e0|];
      [now rewrite Hstep|].
    destruct Hstep as (rest & Hlog & Hok & Hfail & Hnone).
    eexists _, rest. split; [exact Hlog|].
    destruct (status_of _) as [status|].
    - destruct (Z.eq_dec status 0) as [->|Hst].
      + destruct (Hok eq_refl) as (rc' & -> & _).
        now intros e ->%list_elem_of_singleton.
      + destruct (Hfail status eq_refl Hst) as [-> _].
        intros e He. now apply elem_of_nil in He.
    - destruct (Hnone eq_refl) as [-> _].
      intros e He. now apply elem_of_nil in He. }
  revert Hlog.
  destruct (build_extension_environ self ext w) as [Henv _].
  intros Hlog.
  unfold effective_env. cbn [env configure_call compile_call default].
  rewrite Henv. unfold build_env.
  split; [apply lookup_insert_eq|].
  split; [intros k Hk; now apply lookup_insert_ne|].
  do 5 (split; [reflexivity|]). split; [|exact Hlog].
  intros Heq.
  apply (f_equal (fun m => String.length (default "" (m !! "CXXFLAGS")))) in Heq.
  rewrite lookup_insert_eq in Heq. cbn [default id] in Heq.
  rewrite !string_length_app in Heq. cbn in Heq. lia.
Qed.

(** *** The dependency *)

Lemma install_dependencies_run (self : build_ext) (w : World) :
  let dir_pybind11 := os_path_join (getcwd w) ["pybind11"] in
  install_dependencies spawn os_mkdir self w =
  if bool_decide (dir_pybind11 ∈ fs w) then (inr (Some 0), w)
  else
    match mkdir_error dir_pybind11 (os_mkdir dir_pybind11 w) with
    | Some e => (inl e, w)
    | None =>
        match check_call spawn (clone_call dir_pybind11)
                         (with_dir dir_pybind11 w) with
        | (inl e, w1) => (inl e, w1)
        | (inr _, w1) =>
            match check_call spawn submodule_call w1 with
            | (inl e, w2) => (inl e, w2)
            | (inr _, w2) => (inr None, w2)
            end
        end
    end.
Proof.
  cbn zeta. unfold install_dependencies, exists_, read, mkdir, make_directory.
  unfold mbind, M_bind, mret, M_ret.
  destruct (bool_decide (os_path_join (getcwd w) ["pybind11"] ∈ fs w)) eqn:Hd;
    [reflexivity|].
  rewrite Hd.
  destruct (mkdir_error _ (os_mkdir _ w)) as [e0|]; [reflexivity|].
  destruct (check_call spawn _ (with_dir _ w)) as [[e|[]] w1]; [reflexivity|].
  destruct (check_call spawn submodule_call w1) as [[e|[]] w2]; reflexivity.
Qed.

Lemma fetches_app (l : list Event) (e : Event) :
  fetches (l ++ [e]) = (fetches l + if is_fetch e then 1 else 0)%nat.
Proof.
  unfold fetches. rewrite List.filter_app, length_app. cbn.
  now destruct (is_fetch e).
Qed.

Lemma check_call_log (c : Call) (w : World) :
  exists rc, log (snd (check_call spawn c w))
             = log w ++ [{| call := c; returncode := rc |}].
Proof.
  rewrite check_call_run. destruct (spawn c w); [now eexists|].
  destruct (_ =? 0); now eexists.
Qed.

Lemma check_call_keeps (d : string) (c : Call) (w : World) :
  (forall c w0 status out fs',
      spawn c w0 = Exited status out fs' -> d ∈ fs w0 -> d ∈ fs') ->
  d ∈ fs w -> d ∈ fs (snd (check_call spawn c w)).
Proof.
  intros Hkeep Hd. rewrite check_call_run.
  destruct (spawn c w) as [|status out fs'] eqn:Hc; [exact Hd|].
  destruct (status =? 0); cbn; eapply Hkeep; eauto.
Qed.

(** C6: [install_dependencies] does nothing when the directory exists:
    it returns 0 and leaves the world, log included, as it was, whatever
    the directory holds.  When no external program removes the directory,
    two calls in a row fetch at most once: either the first call cannot
    make the directory, and then both calls raise the exception of
    [os.mkdir] and fetch nothing, or the directory is there after the
    first call and the second one is such a no-op. *)
Theorem C6_install_dependencies_idempotent (self : build_ext) (w : World) :
  let dir_pybind11 := os_path_join (getcwd w) ["pybind11"] in
  let first := install_dependencies spawn os_mkdir self w in
  let second := install_dependencies spawn os_mkdir self (snd first) in
  (dir_pybind11 ∈ fs w -> first = (inr (Some 0), w))
  /\ ((forall c w0 status out fs',
         spawn c w0 = Exited status out fs' ->
         dir_pybind11 ∈ fs w0 -> dir_pybind11 ∈ fs') ->
      (fetches (log (snd second)) <= fetches (log w) + 1)%nat
      /\ match directory_error os_mkdir dir_pybind11 w with
         | Some e => first = (inl e, w) /\ second = (inl e, w)
         | None => second = (inr (Some 0), snd first)
         end).
Proof.
  cbn zeta. split.
  - intros Hd. rewrite install_dependencies_run. cbn zeta.
    now rewrite bool_decide_eq_true_2.
  - intros Hkeep.
    set (d := os_path_join (getcwd w) ["pybind11"]) in *.
    unfold directory_error.
    destruct (bool_decide (d ∈ fs w)) eqn:Hd.
    { apply bool_decide_eq_true_1 in Hd.
      assert (Hfirst : install_dependencies spawn os_mkdir self w
                       = (inr (Some 0), w)).
      { rewrite install_dependencies_run. cbn zeta. fold d.
        now rewrite bool_decide_eq_true_2. }
      rewrite !Hfirst. cbn [snd]. rewrite Hfirst. cbn [snd].
      split; [lia | reflexivity]. }
    destruct (mkdir_error d (os_mkdir d w)) as [e|] eqn:Hmk.
    { assert (Hfirst : install_dependencies spawn os_mkdir self w
                       = (inl e, w)).
      { rewrite install_dependencies_run. cbn zeta. fold d.
        now rewrite Hd, Hmk. }
      rewrite !Hfirst. cbn [snd]. rewrite Hfirst. cbn [snd].
      split; [lia | now split]. }
    assert (Hfirst : getcwd (snd (install_dependencies spawn os_mkdir self w))
                     = getcwd w
                     /\ d ∈ fs (snd (install_dependencies spawn os_mkdir
                                                           self w))
                     /\ (fetches (log (snd (install_dependencies
                                              spawn os_mkdir self w)))
                         <= fetches (log w) + 1)%nat).
    { rewrite install_dependencies_run. cbn zeta. fold d. rewrite Hd, Hmk.
      assert (Hd0 : d ∈ fs (with_dir d w))
        by (apply elem_of_union; left; now apply elem_of_singleton).
      pose proof (check_call_keeps d (clone_call d) _ Hkeep Hd0) as Hd1.
      destruct (check_call_environ (clone_call d) (with_dir d w))
        as [_ Hcwd1].
      destruct (check_call_log (clone_call d) (with_dir d w))
        as [rc1 Hlog1].
      destruct (check_call spawn (clone_call d) (with_dir d w))
        as [[e|[]] w1]; cbn [snd] in *.
      + rewrite Hlog1, fetches_app. cbn [with_dir log getcwd] in *.
        split; [exact Hcwd1|]. split; [exact Hd1|].
        destruct (is_fetch _); lia.
      + pose proof (check_call_keeps d submodule_call _ Hkeep Hd1) as Hd2.
        destruct (check_call_environ submodule_call w1) as [_ Hcwd2].
        destruct (check_call_log submodule_call w1) as [rc2 Hlog2].
        assert (Hgoal : getcwd (snd (check_call spawn submodule_call w1))
                        = getcwd w
                        /\ d ∈ fs (snd (check_call spawn submodule_call w1))
                        /\ (fetches (log (snd (check_call spawn
                                                 submodule_call w1)))
                            <= fetches (log w) + 1)%nat).
        { rewrite Hcwd2, Hcwd1, Hlog2, Hlog1, !fetches_app.
          cbn [with_dir log getcwd]. split; [reflexivity|].
          split; [exact Hd2|].
          change (is_fetch {| call := submodule_call; returncode := rc2 |})
            with false.
          destruct (is_fetch _); lia. }
        destruct (check_call spawn submodule_call w1) as [[e|[]] w2];
          exact Hgoal. }
    destruct Hfirst as (Hcwd & Hthere & Hfetch).
    assert (Hsecond : install_dependencies spawn os_mkdir self
                        (snd (install_dependencies spawn os_mkdir self w))
                      = (inr (Some 0),
                         snd (install_dependencies spawn os_mkdir self w))).
    { rewrite install_dependencies_run. cbn zeta. rewrite Hcwd. fold d.
      now rewrite bool_decide_eq_true_2 by exact Hthere. }
    rewrite Hsecond. cbn [snd]. split; [exact Hfetch | reflexivity].
Qed.

(** *** The tool chain *)

Variable decode : string -> option string.

Lemma check_version_world (out : string) (w : World) :
  snd (check_version host decode out w) = w.
Proof.
  unfold check_version.
  destruct (String.eqb _ _); [|reflexivity].
  destruct (decode out) as [text|]; [|reflexivity].
  destruct (Re.search_version text) as [g|]; [|reflexivity].
  destruct (version.parse g) as [v|]; [|reflexivity].
  change (version.parse "3.1.0") with (Some [3; 1; 0]%N). cbv beta iota.
  destruct (version.lt v [3; 1; 0]%N); reflexivity.
Qed.

Lemma check_version_result (out : string) (w : World) :
  (fst (check_version host decode out w) = inl (RuntimeError too_old_message)
   <-> platform_system host = "Windows"
       /\ exists text g v,
           decode out = Some text /\ Re.search_version text = Some g
           /\ version.parse g = Some v
           /\ version.lt v [3; 1; 0]%N = true)
  /\ (platform_system host <> "Windows" ->
      fst (check_version host decode out w) = inr tt)
  /\ (forall e, fst (check_version host decode out w) = inl e ->
                ~ is_process_error e).
Proof.
  unfold check_version.
  destruct (String.eqb (platform_system host) "Windows") eqn:Hsys.
  - apply String.eqb_eq in Hsys.
    change (version.parse "3.1.0") with (Some [3; 1; 0]%N).
    destruct (decode out) as [text|].
    2:{ split; [|split]; [split| |]; cbn.
        - discriminate.
        - intros (_ & ? & ? & ? & ? & _). discriminate.
        - congruence.
        - intros e [= <-]. exact id. }
    destruct (Re.search_version text) as [g|] eqn:Hg.
    2:{ split; [|split]; [split| |]; cbn.
        - discriminate.
        - intros (_ & ? & ? & ? & [= <-] & ? & _). congruence.
        - congruence.
        - intros e [= <-]. exact id. }
    destruct (version.parse g) as [v|] eqn:Hv.
    2:{ split; [|split]; [split| |]; cbn.
        - discriminate.
        - intros (_ & ? & ? & ? & [= <-] & Hg' & ? & _).
          rewrite Hg in Hg'. injection Hg' as <-. congruence.
        - congruence.
        - intros e [= <-]. exact id. }
    cbv beta iota.
    destruct (version.lt v [3; 1; 0]%N) eqn:Hlt;
      (split; [|split]; [split| |]); cbn.
    + intros _. split; [exact Hsys|]. now exists text, g, v.
    + reflexivity.
    + congruence.
    + intros e [= <-]. exact id.
    + discriminate.
    + intros (_ & ? & ? & ? & [= <-] & Hg' & Hv' & Hlt').
      rewrite Hg in Hg'. injection Hg' as <-.
      rewrite Hv in Hv'. injection Hv' as <-. congruence.
    + congruence.
    + discriminate.
  - apply String.eqb_neq in Hsys. split; [|split]; [split| |]; cbn.
    + discriminate.
    + intros [Habs _]. contradiction.
    + reflexivity.
    + discriminate.
Qed.

Lemma run_run (self : build_ext) (w : World) :
  run host spawn os_mkdir os_makedirs decode self w =
  match spawn version_call w with
  | NotStarted =>
      (inl (RuntimeError (missing_message self)),
       after_call w version_call None (fs w))
  | Exited status out fs' =>
      let w1 := after_call w version_call (Some status) fs' in
      if status =? 0 then
        match fst (check_version host decode out w1) with
        | inl e => (inl e, w1)
        | inr _ => build_all host spawn os_mkdir os_makedirs self w1
        end
      else (inl (CalledProcessError status (argv version_call)), w1)
  end.
Proof.
  unfold run, build_all, try_except. unfold mbind at 1. unfold M_bind at 1.
  rewrite check_output_run.
  destruct (spawn version_call w) as [|status out fs']; [reflexivity|].
  cbn zeta. destruct (status =? 0); [|reflexivity].
  unfold mbind at 1. unfold M_bind at 1.
  pose proof (check_version_world out
                (after_call w version_call (Some status) fs')) as Hw.
  destruct (check_version host decode out _) as [[e|[]] w2];
    cbn [fst snd] in *; now subst w2.
Qed.

(** what [build_all] can raise comes from the file system or a program *)

Lemma check_call_error (c : Call) (w : World) (e : exn) :
  fst (check_call spawn c w) = inl e -> is_process_error e.
Proof.
  rewrite check_call_run. destruct (spawn c w) as [|status out fs'].
  - intros [= <-]. exact I.
  - destruct (status =? 0); [discriminate|]. intros [= <-]. exact I.
Qed.

Lemma mkdir_error_process (p : string) (answer : Mkdir) (e : exn) :
  mkdir_error p answer = Some e -> is_process_error e.
Proof. destruct answer; intros [= <-]; exact I. Qed.

Lemma install_dependencies_error (self : build_ext) (w : World) (e : exn) :
  fst (install_dependencies spawn os_mkdir self w) = inl e ->
  is_process_error e.
Proof.
  rewrite install_dependencies_run. cbn zeta.
  destruct (bool_decide _); [discriminate|].
  destruct (mkdir_error _ (os_mkdir _ w)) as [e0|] eqn:Hmk.
  { intros [= <-]. now apply mkdir_error_process in Hmk. }
  pose proof (check_call_error
                (clone_call (os_path_join (getcwd w) ["pybind11"]))
                (with_dir (os_path_join (getcwd w) ["pybind11"]) w)) as H1.
  destruct (check_call spawn (clone_call _) _) as [[e1|[]] w1].
  - intros [= <-]. now apply H1.
  - pose proof (check_call_error submodule_call w1) as H2.
    destruct (check_call spawn submodule_call w1) as [[e2|[]] w2].
    + intros [= <-]. now apply H2.
    + discriminate.
Qed.

Lemma build_extension_error (self : build_ext) (ext : CMakeExtension)
      (w : World) (e : exn) :
  fst (build_extension host spawn os_makedirs self ext w) = inl e ->
  is_process_error e.
Proof.
  rewrite build_extension_run. cbn zeta. unfold directory_error.
  destruct (bool_decide (build_temp self ∈ fs w)).
  2:{ destruct (mkdir_error _ (os_makedirs _ w)) as [e0|] eqn:Hmk.
      { intros [= <-]. now apply mkdir_error_process in Hmk. }
      destruct (spawn _ (prepared self w)) as [|status out fs1].
      - intros [= <-]. exact I.
      - destruct (status =? 0).
        + apply check_call_error.
        + intros [= <-]. exact I. }
  destruct (spawn _ (prepared self w)) as [|status out fs1].
  - intros [= <-]. exact I.
  - destruct (status =? 0).
    + apply check_call_error.
    + intros [= <-]. exact I.
Qed.

Lemma for_each_error (self : build_ext) (l : list CMakeExtension)
      (w : World) (e : exn) :
  fst (for_each l (build_extension host spawn os_makedirs self) w) = inl e ->
  is_process_error e.
Proof.
  revert w. induction l as [|ext l IH]; intros w; [discriminate|].
  cbn [for_each]. unfold mbind, M_bind.
  pose proof (build_extension_error self ext w) as Hext.
  destruct (build_extension host spawn os_makedirs self ext w) as [[e1|[]] w1].
  - intros [= <-]. now apply Hext.
  - apply IH.
Qed.

Lemma build_all_error (self : build_ext) (w : World) (e : exn) :
  fst (build_all host spawn os_mkdir os_makedirs self w) = inl e ->
  is_process_error e.
Proof.
  unfold build_all, mbind, M_bind.
  pose proof (install_dependencies_error self w) as Hdep.
  destruct (install_dependencies spawn os_mkdir self w) as [[e1|r] w1].
  - intros [= <-]. now apply Hdep.
  - apply for_each_error.
Qed.

(** the order of versions against 3.1.0, in numbers *)

Lemma lt_threshold (major minor : N) (rest : list N) :
  version.lt (major :: minor :: rest) [3; 1; 0]%N = true
  <-> (major < 3 \/ (major = 3 /\ minor = 0))%N.
Proof.
  unfold version.lt.
  change (version.strip_zeros [3; 1; 0]%N) with [3; 1]%N.
  cbn [version.strip_zeros].
  destruct (version.strip_zeros rest) as [|t0 t];
    destruct minor as [|pm]; destruct major as [|pM];
    cbn [version.tuple_lt];
    repeat match goal with
           | |- context [(?a <? ?b)%N] => destruct (N.ltb_spec a b)
           end;
    split; intros Hgoal; try reflexivity; try discriminate; try lia.
Qed.

Lemma lt_threshold_major (major : N) :
  version.lt [major] [3; 1; 0]%N = true <-> (major <= 3)%N.
Proof.
  unfold version.lt.
  change (version.strip_zeros [3; 1; 0]%N) with [3; 1]%N.
  cbn [version.strip_zeros].
  destruct major as [|pM]; cbn [version.tuple_lt];
    repeat match goal with
           | |- context [(?a <? ?b)%N] => destruct (N.ltb_spec a b)
           end;
    split; intros Hgoal; try reflexivity; try discriminate; try lia.
Qed.

(** C7: when [cmake] cannot be started, [run] raises the [RuntimeError]
    that asks for CMake, and the attempted version query is the only
    program in the log: no configure and no compile call of any target. *)
Theorem C7_toolchain_missing (self : build_ext) (w : World) :
  spawn version_call w = NotStarted ->
  let result := run host spawn os_mkdir os_makedirs decode self w in
  fst result = inl (RuntimeError (missing_message self))
  /\ Py.startswith (missing_message self) "CMake must be installed" = true
  /\ log (snd result)
     = log w ++ [{| call := version_call; returncode := None |}]
  /\ (forall e, e ∈ drop (length (log w)) (log (snd result)) ->
                call e = version_call
                /\ forall ext w0,
                    call e <> configure_call host w0 self ext
                    /\ call e <> compile_call host w0 self ext).
Proof.
  intros Hspawn. cbn zeta. rewrite run_run, Hspawn. cbn [fst snd].
  split; [reflexivity|]. split; [reflexivity|]. split; [reflexivity|].
  intros e. cbn [after_call log]. rewrite drop_app_length.
  intros ->%list_elem_of_singleton. cbn [call].
  split; [reflexivity|]. intros ext w0. split; discriminate.
Qed.

(** C8: on Windows [run] raises the [RuntimeError] that asks for CMake
    3.1.0 exactly when the version query succeeded and the version parsed
    from its output is below 3.1.0.  Below 3.1.0 are, in numbers, the
    versions whose major number is under 3 or is 3 with the minor number
    0 or with no minor number; the minimum itself parses to 3, 1, 0.  On
    every other platform this error is never raised and the output of the
    query is not looked at: after a successful query [run] goes on with
    the dependency and the targets. *)
Theorem C8_version_threshold (self : build_ext) (w : World) :
  (platform_system host = "Windows" ->
     fst (run host spawn os_mkdir os_makedirs decode self w)
     = inl (RuntimeError too_old_message)
     <-> exists out fs' text g v,
           spawn version_call w = Exited 0 out fs'
           /\ decode out = Some text
           /\ Re.search_version text = Some g
           /\ version.parse g = Some v
           /\ version.lt v [3; 1; 0]%N = true)
  /\ version.parse "3.1.0" = Some [3; 1; 0]%N
  /\ (forall major minor rest,
        version.lt (major :: minor :: rest) [3; 1; 0]%N = true
        <-> (major < 3 \/ (major = 3 /\ minor = 0))%N)
  /\ (forall major,
        version.lt [major] [3; 1; 0]%N = true <-> (major <= 3)%N)
  /\ (platform_system host <> "Windows" ->
      fst (run host spawn os_mkdir os_makedirs decode self w)
      <> inl (RuntimeError too_old_message)
      /\ forall out fs',
          spawn version_call w = Exited 0 out fs' ->
          run host spawn os_mkdir os_makedirs decode self w
          = build_all host spawn os_mkdir os_makedirs self
                      (after_call w version_call (Some 0) fs')).
Proof.
  assert (Hmsg : forall s, @inl exn unit (RuntimeError (missing_message s))
                           <> inl (RuntimeError too_old_message)).
  { intros s Heq.
    apply (f_equal (fun r => match r with
                             | inl (RuntimeError m) => Py.startswith m "CMake m"
                             | _ => false
                             end)) in Heq.
    discriminate Heq. }
  assert (Hbuild : forall w1,
             fst (build_all host spawn os_mkdir os_makedirs self w1)
             <> inl (RuntimeError too_old_message)).
  { intros w1 Heq. apply build_all_error in Heq. exact Heq. }
  rewrite run_run.
  split; [|split; [reflexivity|]; split; [exact lt_threshold|];
           split; [exact lt_threshold_major|]]; intros Hsys.
  - destruct (spawn version_call w) as [|status out fs'] eqn:Hspawn.
    + cbn [fst]. split.
      * intros Heq. now apply Hmsg in Heq.
      * intros (? & ? & ? & ? & ? & [=] & _).
    + cbn zeta. destruct (status =? 0) eqn:Hst.
      * apply Z.eqb_eq in Hst as ->.
        destruct (check_version_result out
                    (after_call w version_call (Some 0) fs'))
          as (Hold & _ & _).
        destruct (fst (check_version host decode out _)) as [e|[]] eqn:Hcheck.
        -- cbn [fst]. rewrite Hold. split.
           ++ intros (_ & text & g & v & H). now exists out, fs', text, g, v.
           ++ intros (out' & fs'' & text & g & v & [= <- <-] & H).
              split; [exact Hsys|]. now exists text, g, v.
        -- split; [intros Heq; now apply Hbuild in Heq|].
           intros (out' & fs'' & text & g & v & [= <- <-] & H).
           assert (@inr exn unit tt = inl (RuntimeError too_old_message))
             as Habs; [|discriminate Habs].
           apply Hold. split; [exact Hsys|]. now exists text, g, v.
      * apply Z.eqb_neq in Hst. cbn [fst]. split; [discriminate|].
        intros (? & ? & ? & ? & ? & [= -> _ _] & _). contradiction.
  - destruct (spawn version_call w) as [|status out fs'] eqn:Hspawn.
    + cbn [fst]. split; [apply Hmsg | discriminate].
    + cbn zeta. destruct (status =? 0) eqn:Hst.
      * apply Z.eqb_eq in Hst as ->.
        destruct (check_version_result out
                    (after_call w version_call (Some 0) fs'))
          as (_ & Hother & _).
        rewrite (Hother Hsys). split; [apply Hbuild|].
        now intros out' fs'' [= <- <-].
      * apply Z.eqb_neq in Hst. cbn [fst]. split; [discriminate|].
        intros out' fs'' [= -> _ _]. contradiction.
Qed.

End Runs.

(** ** [posixpath]: absolute paths *)

Lemma string_app_nil_r (s : string) : s +:+ "" = s.
Proof. induction s as [|a s IH]; [reflexivity|]. now rewrite app_cons, IH. Qed.

Lemma split_not_nil (c : ascii) (s : string) : Py.split c s <> [].
Proof.
  induction s as [|a s IH]; cbn; [discriminate|].
  destruct (Ascii.eqb a c); [discriminate|].
  now destruct (Py.split c s).
Qed.

Lemma split_app_sep (c : ascii) (s : string) :
  Py.split c (s +:+ String c "") = Py.split c s ++ [""].
Proof.
  induction s as [|a s IH].
  - rewrite app_nil_l. cbn [Py.split]. now rewrite Ascii.eqb_refl.
  - rewrite app_cons. cbn [Py.split]. rewrite IH.
    destruct (Ascii.eqb a c); [reflexivity|].
    pose proof (split_not_nil c s).
    now destruct (Py.split c s).
Qed.

Lemma initial_slashes_app_sep (s : string) :
  s <> "" -> Py.endswith_char s posixpath.sep = false ->
  posixpath.initial_slashes (s +:+ "/") = posixpath.initial_slashes s.
Proof.
  intros Hne Hend. unfold posixpath.initial_slashes, posixpath.sep in *.
  destruct s as [|a [|b [|c s]]]; [contradiction| | |].
  - cbn [Py.endswith_char] in Hend.
    rewrite !app_cons, app_nil_l. cbn [Py.startswith].
    now rewrite (Ascii.eqb_sym "/" a), Hend.
  - cbn [Py.endswith_char] in Hend.
    rewrite !app_cons, app_nil_l. cbn [Py.startswith].
    rewrite (Ascii.eqb_sym "/" b), Hend.
    now destruct (Ascii.eqb "/" a).
  - reflexivity.
Qed.

Lemma normpath_app_sep (s : string) :
  s <> "" -> Py.endswith_char s posixpath.sep = false ->
  posixpath.normpath (s +:+ "/") = posixpath.normpath s.
Proof.
  intros Hne Hend. unfold posixpath.normpath.
  rewrite initial_slashes_app_sep by assumption.
  change (s +:+ "/") with (s +:+ String posixpath.sep "").
  rewrite split_app_sep, fold_left_app.
  destruct s as [|a s]; [contradiction|]. reflexivity.
Qed.

Lemma normpath_isabs (p : string) :
  posixpath.isabs p = true -> posixpath.isabs (posixpath.normpath p) = true.
Proof.
  unfold posixpath.isabs. intros Hp.
  apply startswith_spec in Hp as [t ->].
  unfold posixpath.normpath. change ("/" +:+ t) with (String "/" t).
  cbn [String.eqb]. unfold posixpath.initial_slashes.
  change (Py.startswith (String "/" t) "/") with true. cbv iota.
  destruct (_ && _); reflexivity.
Qed.

Lemma join1_isabs (cwd p : string) :
  posixpath.isabs cwd = true -> posixpath.isabs (posixpath.join1 cwd p) = true.
Proof.
  unfold posixpath.isabs, posixpath.join1. intros Hcwd.
  destruct (Py.startswith p "/") eqn:Hp; [exact Hp|].
  apply startswith_spec in Hcwd as [t ->].
  destruct (_ || _); reflexivity.
Qed.

Lemma abspath_isabs (cwd p : string) :
  posixpath.isabs cwd = true ->
  posixpath.isabs (posixpath.abspath cwd p) = true.
Proof.
  intros Hcwd. unfold posixpath.abspath. apply normpath_isabs.
  destruct (posixpath.isabs p) eqn:Hp; [exact Hp|].
  now apply join1_isabs.
Qed.

Lemma abspath_empty (cwd : string) :
  posixpath.isabs cwd = true ->
  posixpath.abspath cwd "" = posixpath.normpath cwd.
Proof.
  intros Hcwd. unfold posixpath.abspath.
  change (posixpath.isabs "") with false. cbv iota.
  change (posixpath.join cwd [""]) with (posixpath.join1 cwd "").
  unfold posixpath.join1. change (Py.startswith "" "/") with false. cbv iota.
  assert (cwd <> "") as Hne by (intros ->; discriminate).
  destruct (String.eqb_spec cwd ""); [contradiction|]. cbn [orb].
  destruct (Py.endswith_char cwd posixpath.sep) eqn:Hend.
  - now rewrite string_app_nil_r.
  - change (cwd +:+ "/" +:+ "") with (cwd +:+ "/").
    now apply normpath_app_sep.
Qed.

(** C10: the descriptor has no compiled sources and its source directory
    is [os.path.abspath] of the given one.  With [posixpath], whatever the
    given directory, relative or empty, the source directory is absolute,
    and for the empty one it is the normalized current directory. *)
Theorem C10_absolute_sourcedir (cwd n dir : string) :
  posixpath.isabs cwd = true ->
  let ext := CMakeExtension_init cwd n dir in
  sources ext = []
  /\ name ext = n
  /\ sourcedir ext = posixpath.abspath cwd dir
  /\ posixpath.isabs (sourcedir ext) = true
  /\ sourcedir (CMakeExtension_init cwd n "") = posixpath.normpath cwd
  /\ (posixpath.normpath cwd = cwd ->
      sourcedir (CMakeExtension_init cwd n "") = cwd).
Proof.
  intros Hcwd. cbn zeta.
  cbn [sources name sourcedir CMakeExtension_init os_path_abspath
       posix_os_path].
  split; [reflexivity|]. split; [reflexivity|]. split; [reflexivity|].
  split; [now apply abspath_isabs|].
  split; [now apply abspath_empty|].
  intros Hnorm. now rewrite abspath_empty.
Qed.

(** ** The properties on the sample hosts *)

(** the platform directives on 64-bit Windows, where [-A] is there, and on
    the sample Linux host *)
Lemma C2_platform_directives_witness :
  platform_system (windows_host 64) = "Windows"
  /\ (8 | pointer_bits (windows_host 64))
  /\ cmake_args (windows_host 64) ∅ true "C:\out"
     = ["-DCMAKE_LIBRARY_OUTPUT_DIRECTORY=C:\out";
        "-DPYTHON_EXECUTABLE=C:\Python\python.exe";
        "-DCMAKE_LIBRARY_OUTPUT_DIRECTORY_DEBUG=C:\out"; "-A"; "x64"]
  /\ "-A" ∈ cmake_args (windows_host 64) ∅ true "C:\out"
  /\ List.filter (fun a => Py.startswith a "-DCMAKE_BUILD_TYPE=")
                 (cmake_args linux_host ∅ true "/out")
     = ["-DCMAKE_BUILD_TYPE=Debug"].
Proof.
  assert (Hdiv : (8 | pointer_bits (windows_host 64)))
    by (exists 8; reflexivity).
  split; [reflexivity|]. split; [exact Hdiv|]. split; [reflexivity|].
  destruct (C2_platform_directives (windows_host 64) ∅ true "C:\out")
    as [Hwin _].
  destruct (C2_platform_directives linux_host ∅ true "/out") as [_ Hother].
  split.
  - destruct (Hwin eq_refl) as (_ & _ & _ & _ & Hbits & _).
    apply (Hbits Hdiv). reflexivity.
  - apply Hother. discriminate.
Defined.

(** the end-to-end scenario on the sample Linux host *)
Lemma C3_end_to_end_witness :
  argv (configure_call linux_host sample_world (sample_build "/repo")
                       pyflagser_ext)
  = ["cmake"; "/repo";
     "-DCMAKE_LIBRARY_OUTPUT_DIRECTORY=/repo/build/lib/pyflagser/modules";
     "-DPYTHON_EXECUTABLE=/usr/bin/python3";
     "-DCMAKE_BUILD_TYPE=Release"]
  /\ native_flags (argv (compile_call linux_host sample_world
                                      (sample_build "/repo") pyflagser_ext))
     = ["-j2"].
Proof.
  destruct (C3_end_to_end linux_host (sample_build "/repo") sample_world)
    as (_ & Hconfigure & _ & Hflags);
    [discriminate | reflexivity | reflexivity |].
  split; [exact Hconfigure | exact Hflags].
Defined.

(** the architecture directive on the sample macOS host, with two tokens
    and with none *)
Lemma C4_macos_architectures_witness :
  List.filter (fun a => Py.startswith a "-DCMAKE_OSX_ARCHITECTURES=")
    (cmake_args macos_host {["ARCHFLAGS" := "-arch x86_64 -arch arm64"]}
                false "/out")
  = ["-DCMAKE_OSX_ARCHITECTURES=x86_64;arm64"]
  /\ List.filter (fun a => Py.startswith a "-DCMAKE_OSX_ARCHITECTURES=")
       (cmake_args macos_host {["ARCHFLAGS" := "-archx86_64 -arch "]}
                   false "/out")
     = [].
Proof.
  destruct (C4_macos_architectures macos_host
              {["ARCHFLAGS" := "-arch x86_64 -arch arm64"]} false "/out"
              eq_refl) as (Hset & _).
  destruct (C4_macos_architectures macos_host
              {["ARCHFLAGS" := "-archx86_64 -arch "]} false "/out"
              eq_refl) as (_ & _ & _ & Hnone).
  split.
  - apply Hset. apply lookup_singleton_eq.
  - apply (Hnone "-archx86_64 -arch "); [apply lookup_singleton_eq|].
    apply findall_arch_nil. reflexivity.
Defined.

(** not every program runs in the prepared environment: in a build on
    the sample host the compile call runs without the version define *)
Lemma C5_not_for_all :
  ~ prepared_env_for_all linux_host (spawn_exit 0 "") mkdir_made
      (sample_build "/repo") pyflagser_ext sample_world.
Proof.
  unfold prepared_env_for_all. rewrite build_extension_run. cbn zeta.
  change (directory_error mkdir_made (build_temp (sample_build "/repo"))
                          sample_world) with (@None exn).
  cbv beta iota.
  change (spawn_exit 0 "" ?c ?w) with (Exited 0 "" (fs w)).
  cbv beta iota. rewrite check_call_run.
  change (spawn_exit 0 "" ?c ?w) with (Exited 0 "" (fs w)).
  cbv beta iota. cbn [snd after_call log sample_world length drop app].
  intros Hall. apply Forall_cons_1 in Hall as [_ Hall].
  apply Forall_cons_1 in Hall as [Hcompile _].
  apply (f_equal (fun m => m !! "CXXFLAGS")) in Hcompile.
  unfold build_env in Hcompile. rewrite lookup_insert_eq in Hcompile.
  discriminate Hcompile.
Qed.

(** two calls in the sample world, where [git] succeeds: one fetch when
    the directory can be made, and none, with the same exception twice,
    when a link is in the way *)
Lemma C6_install_dependencies_idempotent_witness :
  let first := install_dependencies (spawn_exit 0 "") mkdir_made
                                    (sample_build "/repo") sample_world in
  let stuck := install_dependencies (spawn_exit 0 "") mkdir_link
                                    (sample_build "/repo") sample_world in
  (install_dependencies (spawn_exit 0 "") mkdir_made (sample_build "/repo")
                        (snd first)
   = (inr (Some 0), snd first)
   /\ fetches (log (snd first)) = 1%nat)
  /\ (stuck = (inl (FileExistsError "/repo/pybind11"), sample_world)
      /\ install_dependencies (spawn_exit 0 "") mkdir_link
                              (sample_build "/repo") (snd stuck)
         = (inl (FileExistsError "/repo/pybind11"), sample_world)).
Proof.
  cbn zeta.
  assert (Hkeep : forall c w0 status out fs',
             spawn_exit 0 "" c w0 = Exited status out fs' ->
             os_path_join (getcwd sample_world) ["pybind11"] ∈ fs w0 ->
             os_path_join (getcwd sample_world) ["pybind11"] ∈ fs').
  { intros c w0 status out fs' [= _ _ <-] Hd. exact Hd. }
  destruct (C6_install_dependencies_idempotent
              (spawn_exit 0 "") mkdir_made (sample_build "/repo") sample_world)
    as [_ Hmade].
  destruct (C6_install_dependencies_idempotent
              (spawn_exit 0 "") mkdir_link (sample_build "/repo") sample_world)
    as [_ Hlink].
  destruct (Hmade Hkeep) as [_ Hsecond].
  destruct (Hlink Hkeep) as [_ Hstuck].
  split; [split; [exact Hsecond | reflexivity] | exact Hstuck].
Defined.

(** the run when no program can be started *)
Lemma C7_toolchain_missing_witness :
  fst (run linux_host spawn_none mkdir_made mkdir_made decode_ascii
           (sample_build "/repo") sample_world)
  = inl (RuntimeError
           "CMake must be installed to build the  following extensions: pyflagser")
  /\ log (snd (run linux_host spawn_none mkdir_made mkdir_made decode_ascii
                   (sample_build "/repo") sample_world))
     = [{| call := version_call; returncode := None |}].
Proof.
  destruct (C7_toolchain_missing linux_host spawn_none mkdir_made mkdir_made
              decode_ascii (sample_build "/repo") sample_world eq_refl)
    as (Hresult & _ & Hlog & _).
  split; [exact Hresult | exact Hlog].
Defined.

(** the version check on Windows with CMake 3.0.2, which is refused, and
    with CMake 3.22.1, which is not; and on Linux with CMake 3.0.2 *)
Lemma C8_version_threshold_witness :
  fst (run (windows_host 64) (spawn_exit 0 "cmake version 3.0.2")
           mkdir_made mkdir_made decode_ascii (sample_build "C:\repo")
           sample_world)
  = inl (RuntimeError "CMake >= 3.1.0 is required on Windows")
  /\ fst (run (windows_host 64) (spawn_exit 0 "cmake version 3.22.1")
              mkdir_made mkdir_made decode_ascii (sample_build "C:\repo")
              sample_world)
     <> inl (RuntimeError "CMake >= 3.1.0 is required on Windows")
  /\ fst (run linux_host (spawn_exit 0 "cmake version 3.0.2")
              mkdir_made mkdir_made decode_ascii (sample_build "/repo")
              sample_world)
     <> inl (RuntimeError "CMake >= 3.1.0 is required on Windows").
Proof.
  destruct (C8_version_threshold (windows_host 64)
              (spawn_exit 0 "cmake version 3.0.2") mkdir_made mkdir_made
              decode_ascii (sample_build "C:\repo") sample_world)
    as [Hold _].
  destruct (C8_version_threshold (windows_host 64)
              (spawn_exit 0 "cmake version 3.22.1") mkdir_made mkdir_made
              decode_ascii (sample_build "C:\repo") sample_world)
    as (Hnew & _ & Hnumbers & _).
  destruct (C8_version_threshold linux_host
              (spawn_exit 0 "cmake version 3.0.2") mkdir_made mkdir_made
              decode_ascii (sample_build "/repo") sample_world)
    as (_ & _ & _ & _ & Hother).
  split; [|split].
  - apply (Hold eq_refl).
    exists "cmake version 3.0.2", (fs sample_world),
           "cmake version 3.0.2", "3.0.2", [3; 0; 2]%N.
    repeat split.
  - intros Hraised.
    apply (Hnew eq_refl) in Hraised
      as (out & fs' & text & g & v & Hspawn & Hdecode & Hsearch & Hparse
          & Hlt).
    injection Hspawn as <- _.
    injection Hdecode as <-. injection Hsearch as <-. injection Hparse as <-.
    apply Hnumbers in Hlt as [Hlt | [_ Hlt]]; [now apply N.ltb_lt in Hlt|].
    discriminate Hlt.
  - apply Hother. discriminate.
Defined.

(** a configure step that fails with status 2: nothing is compiled; and
    a build directory that cannot be made: nothing is run *)
Lemma C9_compile_after_configure_witness :
  let result := build_extension linux_host (spawn_exit 2 "") mkdir_made
                                (sample_build "/repo") pyflagser_ext
                                sample_world in
  (map returncode (log (snd result)) = [Some 2]
   /\ fst result
      = inl (CalledProcessError 2
               (argv (configure_call linux_host sample_world
                                     (sample_build "/repo") pyflagser_ext))))
  /\ build_extension linux_host (spawn_exit 0 "") mkdir_link
                     (sample_build "/repo") pyflagser_ext sample_world
     = (inl (FileExistsError "build/temp"), sample_world).
Proof.
  cbn zeta.
  destruct (C9_compile_after_configure linux_host (spawn_exit 2 "")
              mkdir_made (sample_build "/repo") sample_world) as [Hone _].
  destruct (C9_compile_after_configure linux_host (spawn_exit 0 "")
              mkdir_link (sample_build "/repo") sample_world) as [Hlink _].
  split; [|exact (Hlink pyflagser_ext)].
  destruct (Hone pyflagser_ext) as (rest & Hlog & _ & Hfail & _).
  destruct (Hfail 2 eq_refl) as [-> Hresult]; [discriminate|].
  split; [now rewrite Hlog | exact Hresult].
Defined.

(** the target of [setup.py], built in [/repo] *)
Lemma C10_absolute_sourcedir_witness :
  posixpath.isabs "/repo" = true
  /\ sourcedir (CMakeExtension_init "/repo" "pyflagser" "") = "/repo"
  /\ sourcedir (CMakeExtension_init "/repo" "pyflagser" "../src/./lib")
     = "/src/lib".
Proof.
  destruct (C10_absolute_sourcedir "/repo" "pyflagser" "" eq_refl)
    as (_ & _ & _ & _ & _ & Hcwd).
  destruct (C10_absolute_sourcedir "/repo" "pyflagser" "../src/./lib" eq_refl)
    as (_ & _ & Hdir & _).
  split; [reflexivity|]. split; [now apply Hcwd | exact Hdir].
Defined.

(** * Further properties of the build *)

Section More.

Context {os_path : OsPath}.
Variable host : Host.
Variable spawn : Call -> World -> Outcome.
Variable os_mkdir : string -> World -> Mkdir.
Variable os_makedirs : string -> World -> Mkdir.
Variable decode : string -> option string.

(** ** What a run leaves untouched *)

Lemma install_dependencies_environ (self : build_ext) (w : World) :
  environ (snd (install_dependencies spawn os_mkdir self w)) = environ w
  /\ getcwd (snd (install_dependencies spawn os_mkdir self w)) = getcwd w.
Proof.
  rewrite install_dependencies_run. cbn zeta.
  destruct (bool_decide _); [now split|].
  set (d := os_path_join (getcwd w) ["pybind11"]).
  destruct (mkdir_error d (os_mkdir d w)); [now split|].
  destruct (check_call_environ spawn (clone_call d) (with_dir d w))
    as [Henv1 Hcwd1].
  cbn [with_dir environ getcwd] in Henv1, Hcwd1.
  destruct (check_call spawn (clone_call d) (with_dir d w)) as [[e|[]] w1];
    cbn [snd] in *; [now split|].
  destruct (check_call_environ spawn submodule_call w1) as [Henv2 Hcwd2].
  destruct (check_call spawn submodule_call w1) as [[e|[]] w2];
    cbn [snd] in *; split; congruence.
Qed.

Lemma for_each_environ (self : build_ext) (exts : list CMakeExtension)
      (w : World) :
  let loop := for_each exts (build_extension host spawn os_makedirs self) in
  environ (snd (loop w)) = environ w /\ getcwd (snd (loop w)) = getcwd w.
Proof.
  cbn zeta.
  revert w. induction exts as [|ext exts IH]; intros w; [now split|].
  cbn [for_each]. unfold mbind, M_bind.
  destruct (build_extension_environ host spawn os_makedirs self ext w)
    as [Henv Hcwd].
  destruct (build_extension host spawn os_makedirs self ext w)
    as [[e|[]] w1]; cbn [snd] in *; [now split|].
  destruct (IH w1) as [-> ->]. now split.
Qed.

Lemma build_all_environ (self : build_ext) (w : World) :
  let result := build_all host spawn os_mkdir os_makedirs self w in
  environ (snd result) = environ w /\ getcwd (snd result) = getcwd w.
Proof.
  cbn zeta. unfold build_all, mbind, M_bind.
  destruct (install_dependencies_environ self w) as [Henv Hcwd].
  destruct (install_dependencies spawn os_mkdir self w) as [[e|r] w1];
    cbn [snd] in *; [now split|].
  destruct (for_each_environ self (extensions self) w1) as [-> ->].
  now split.
Qed.

(** X1: whatever the external programs do and however it ends, [run]
    leaves [os.environ] and the current directory of the process as they
    were. *)
Theorem run_keeps_process_state (self : build_ext) (w : World) :
  environ (snd (run host spawn os_mkdir os_makedirs decode self w))
  = environ w
  /\ getcwd (snd (run host spawn os_mkdir os_makedirs decode self w))
     = getcwd w.
Proof.
  rewrite run_run.
  destruct (spawn version_call w) as [|status out fs']; [now split|].
  cbn zeta. destruct (status =? 0); [|now split].
  destruct (fst (check_version host decode out _)); [now split|].
  destruct (build_all_environ
              self (after_call w version_call (Some status) fs'))
    as [-> ->].
  now split.
Qed.

(** ** The dependency, step by step *)

Lemma install_dependencies_log (self : build_ext) (w : World) :
  let dir := os_path_join (getcwd w) ["pybind11"] in
  let result := install_dependencies spawn os_mkdir self w in
  let rc1 := status_of (spawn (clone_call dir) (with_dir dir w)) in
  (dir ∈ fs w -> result = (inr (Some 0), w))
  /\ (dir ∉ fs w ->
      fst result <> inr (Some 0)
      /\ match mkdir_error dir (os_mkdir dir w) with
         | Some e => result = (inl e, w)
         | None =>
             exists rest,
               log (snd result)
               = log w
                 ++ {| call := clone_call dir; returncode := rc1 |} :: rest
               /\ (rc1 = Some 0 ->
                   exists rc2,
                     rest = [{| call := submodule_call; returncode := rc2 |}]
                     /\ (rc2 = Some 0 <-> fst result = inr None)
                     /\ (rc2 = None -> fst result = inl OSError)
                     /\ (forall status, rc2 = Some status -> status <> 0 ->
                         fst result
                         = inl (CalledProcessError status
                                                   (argv submodule_call))))
               /\ (forall status, rc1 = Some status -> status <> 0 ->
                   rest = []
                   /\ fst result
                      = inl (CalledProcessError status
                                                (argv (clone_call dir))))
               /\ (rc1 = None -> rest = [] /\ fst result = inl OSError)
         end).
Proof.
  cbn zeta. rewrite install_dependencies_run. cbn zeta.
  set (dir := os_path_join (getcwd w) ["pybind11"]).
  split; intros Hdir.
  - now rewrite bool_decide_eq_true_2.
  - rewrite bool_decide_eq_false_2 by exact Hdir.
    destruct (mkdir_error dir (os_mkdir dir w)) as [e0|];
      [split; [discriminate | reflexivity]|].
    rewrite check_call_run.
    destruct (spawn (clone_call dir) (with_dir dir w))
      as [|status1 out1 fs1]; cbn [status_of].
    + split; [discriminate|]. exists []. split; [reflexivity|].
      split; [discriminate|]. split; [discriminate|]. now split.
    + destruct (status1 =? 0) eqn:Hst1.
      * apply Z.eqb_eq in Hst1 as ->. rewrite check_call_run.
        destruct (spawn submodule_call _) as [|status2 out2 fs2].
        -- split; [discriminate|]. eexists. cbn [snd after_call log with_dir].
           rewrite <- app_assoc. split; [reflexivity|].
           split; [|split; [congruence | discriminate]].
           intros _. eexists. split; [reflexivity|].
           split; [split; discriminate|]. split; [reflexivity | discriminate].
        -- destruct (status2 =? 0) eqn:Hst2.
           ++ apply Z.eqb_eq in Hst2 as ->. split; [discriminate|].
              eexists. cbn [snd after_call log with_dir].
              rewrite <- app_assoc. split; [reflexivity|].
              split; [|split; [congruence | discriminate]].
              intros _. eexists. split; [reflexivity|].
              split; [now split|]. split; [discriminate | congruence].
           ++ apply Z.eqb_neq in Hst2. split; [discriminate|].
              eexists. cbn [snd after_call log with_dir].
              rewrite <- app_assoc. split; [reflexivity|].
              split; [|split; [congruence | discriminate]].
              intros _. eexists. split; [reflexivity|].
              split; [split; [congruence | discriminate]|].
              split; [discriminate|]. now intros ? [= <-] _.
      * apply Z.eqb_neq in Hst1. split; [discriminate|]. exists [].
        split; [reflexivity|]. split; [congruence|].
        split; [|discriminate]. intros ? [= <-] _. now split.
Qed.


(** X3: a fetch that failed is not tried again.  When the directory is
    missing, [os.mkdir] makes it and [git clone] exits with a nonzero
    status, the method raises [CalledProcessError] but the directory it
    made stays (no program removing it): the next call finds it, returns
    0 and runs nothing. *)
Theorem failed_fetch_is_masked (self : build_ext) (w : World) (status : Z) :
  let dir := os_path_join (getcwd w) ["pybind11"] in
  let first := install_dependencies spawn os_mkdir self w in
  dir ∉ fs w ->
  os_mkdir dir w = Made ->
  status_of (spawn (clone_call dir) (with_dir dir w)) = Some status ->
  status <> 0 ->
  (forall c w0 st out fs',
      spawn c w0 = Exited st out fs' -> dir ∈ fs w0 -> dir ∈ fs') ->
  fst first = inl (CalledProcessError status (argv (clone_call dir)))
  /\ install_dependencies spawn os_mkdir self (snd first)
     = (inr (Some 0), snd first).
Proof.
  cbn zeta. intros Hdir Hmade Hrc Hst Hkeep.
  set (dir := os_path_join (getcwd w) ["pybind11"]) in *.
  destruct (install_dependencies_log self w) as [_ Hout].
  destruct (Hout Hdir) as [_ Hsteps]. fold dir in Hsteps.
  rewrite Hmade in Hsteps. cbn [mkdir_error] in Hsteps.
  destruct Hsteps as (rest & _ & _ & Hfail & _).
  destruct (Hfail status Hrc Hst) as [_ Hres]. split; [exact Hres|].
  destruct (install_dependencies_environ self w) as [_ Hcwd].
  assert (Hthere : dir ∈ fs (snd (install_dependencies spawn os_mkdir
                                                        self w))).
  { rewrite install_dependencies_run. cbn zeta. fold dir.
    rewrite bool_decide_eq_false_2 by exact Hdir.
    rewrite Hmade. cbn [mkdir_error].
    assert (Hd0 : dir ∈ fs (with_dir dir w))
      by (apply elem_of_union; left; now apply elem_of_singleton).
    pose proof (check_call_keeps spawn dir (clone_call dir) _ Hkeep Hd0)
      as Hd1.
    destruct (check_call spawn (clone_call dir) (with_dir dir w))
      as [[e|[]] w1]; cbn [snd] in *; [exact Hd1|].
    pose proof (check_call_keeps spawn dir submodule_call _ Hkeep Hd1)
      as Hd2.
    destruct (check_call spawn submodule_call w1) as [[e|[]] w2];
      exact Hd2. }
  destruct (install_dependencies_log self
              (snd (install_dependencies spawn os_mkdir self w))) as [Hin _].
  apply Hin. rewrite Hcwd. exact Hthere.
Qed.

(** ** The whole run *)

Lemma build_all_log (self : build_ext) (w : World) :
  exists l,
    log (snd (build_all host spawn os_mkdir os_makedirs self w)) = log w ++ l.
Proof.
  unfold build_all, mbind, M_bind.
  assert (Hdep : exists l,
             log (snd (install_dependencies spawn os_mkdir self w))
             = log w ++ l).
  { destruct (install_dependencies_log self w) as [Hin Hout].
    destruct (decide (os_path_join (getcwd w) ["pybind11"] ∈ fs w))
      as [Hd|Hd].
    - exists []. now rewrite (Hin Hd), app_nil_r.
    - destruct (Hout Hd) as [_ Hsteps].
      destruct (mkdir_error _ (os_mkdir _ w)) as [e|].
      + exists []. now rewrite Hsteps, app_nil_r.
      + destruct Hsteps as (rest & Hlog & _). eauto. }
  destruct Hdep as [l1 Hl1].
  destruct (install_dependencies spawn os_mkdir self w) as [[e|r] w1];
    cbn [snd] in *; [eauto|].
  destruct (for_each_build_log host spawn os_makedirs self (extensions self)
              w1 w1 eq_refl eq_refl) as (l2 & Hl2 & _).
  exists (l1 ++ l2). now rewrite Hl2, Hl1, app_assoc.
Qed.

(** X4: [run] starts with the version query, whatever the platform.  A
    query that exits with a nonzero status is not taken for a missing
    tool: its [CalledProcessError] passes the [except OSError] clause and
    leaves [run], with no other program started. *)
Theorem run_version_query_first (self : build_ext) (w : World) :
  let result := run host spawn os_mkdir os_makedirs decode self w in
  let rc := status_of (spawn version_call w) in
  exists rest,
    log (snd result)
    = log w ++ {| call := version_call; returncode := rc |} :: rest
    /\ (forall status, rc = Some status -> status <> 0 ->
        rest = []
        /\ fst result
           = inl (CalledProcessError status ["cmake"; "--version"])).
Proof.
  cbn zeta. rewrite run_run.
  destruct (spawn version_call w) as [|status out fs']; cbn [status_of].
  - exists []. split; [reflexivity | discriminate].
  - cbn zeta. destruct (status =? 0) eqn:Hst.
    + apply Z.eqb_eq in Hst as ->.
      destruct (fst (check_version host decode out _)).
      * exists []. split; [reflexivity|]. now intros ? [= <-].
      * destruct (build_all_log self
                    (after_call w version_call (Some 0) fs')) as [l Hl].
        exists l. rewrite Hl. cbn [after_call log]. rewrite <- app_assoc.
        split; [reflexivity|]. now intros ? [= <-].
    + exists []. split; [reflexivity|]. intros ? [= <-] _. now split.
Qed.

(** X5: on Windows an answer of [cmake --version] that cannot be read
    stops [run] before the dependency and the targets: undecodable bytes
    raise [UnicodeDecodeError], a text without the word [version] raises
    [AttributeError] (no match object), and a matched text that is not a
    version, such as two dots in a row, raises [InvalidVersion]. *)
Theorem run_unreadable_version (self : build_ext) (w : World)
        (out : string) (fs' : gset string) :
  platform_system host = "Windows" ->
  spawn version_call w = Exited 0 out fs' ->
  let w1 := after_call w version_call (Some 0) fs' in
  let result := run host spawn os_mkdir os_makedirs decode self w in
  (decode out = None -> result = (inl UnicodeDecodeError, w1))
  /\ (forall text,
        decode out = Some text ->
        (forall pre post, text <> pre +:+ "version" +:+ post) ->
        result = (inl AttributeError, w1))
  /\ (forall text g,
        decode out = Some text -> Re.search_version text = Some g ->
        version.parse g = None ->
        result = (inl (InvalidVersion g), w1)).
Proof.
  intros Hsys Hspawn. cbn zeta. rewrite run_run, Hspawn. cbn zeta.
  change (0 =? 0) with true. cbv iota.
  unfold check_version. apply String.eqb_eq in Hsys. rewrite Hsys.
  split; [|split].
  - now intros ->.
  - intros text -> Hno.
    assert (Hsearch : Re.search_version text = None).
    { clear -Hno. assert (Hm : forall t, (forall pre post,
                            t <> pre +:+ "version" +:+ post) ->
                          Re.match_version t = None).
      { intros t Ht. unfold Re.match_version.
        destruct (Py.startswith t "version") eqn:Hs; [|reflexivity].
        apply startswith_spec in Hs as [u ->]. now destruct (Ht "" u). }
      induction text as [|a text IH].
      - cbn [Re.search_version]. now rewrite (Hm "" Hno).
      - cbn [Re.search_version]. rewrite (Hm _ Hno). apply IH.
        intros pre post ->. now apply (Hno (String a pre) post). }
    now rewrite Hsearch.
  - intros text g -> -> Hparse. now rewrite Hparse.
Qed.

Lemma for_each_success (self : build_ext) (exts : list CMakeExtension)
      (w0 w : World) :
  environ w0 = environ w -> getcwd w0 = getcwd w ->
  let loop := for_each exts (build_extension host spawn os_makedirs self) in
  fst (loop w0) = inr tt ->
  log (snd (loop w0)) = log w0 ++ built_log host w self exts.
Proof.
  cbn zeta.
  revert w0. induction exts as [|ext exts IH]; intros w0 Henv Hcwd.
  - intros _. cbn. now rewrite app_nil_r.
  - cbn [for_each]. unfold mbind, M_bind.
    pose proof (build_extension_log host spawn os_makedirs self ext w0)
      as Hstep.
    cbn zeta in Hstep.
    destruct (build_extension_environ host spawn os_makedirs self ext w0)
      as [Henv1 Hcwd1].
    destruct (calls_same_process host self ext w0 w Henv Hcwd)
      as [Hconf Hcomp].
    rewrite Hconf, Hcomp in *.
    destruct (build_extension host spawn os_makedirs self ext w0)
      as [[e|[]] w1]; cbn [fst snd] in *; [discriminate|].
    destruct (directory_error os_makedirs (build_temp self) w0) as [e0|];
      [discriminate Hstep|].
    destruct Hstep as (rest & Hlog & Hok & Hfail & Hnone).
    intros Hrest.
    destruct (status_of (spawn (configure_call host w self ext)
                               (prepared self w0))) as [status|].
    + destruct (Z.eq_dec status 0) as [->|Hst].
      * destruct (Hok eq_refl) as (rc' & -> & Hrc').
        assert (rc' = Some 0) as -> by now apply Hrc'.
        rewrite (IH w1) by congruence. rewrite Hlog, <- app_assoc.
        reflexivity.
      * now destruct (Hfail status eq_refl Hst) as [_ [=]].
    + now destruct (Hnone eq_refl) as [_ [=]].
Qed.

(** X7: what a run that ends normally has done.  The version query exited
    0; the dependency was either present, with nothing fetched, or cloned
    and updated with success; and then each target of [self.extensions],
    in order, was configured and compiled with status 0, and nothing else
    was run. *)
Theorem run_success_trace (self : build_ext) (w : World) :
  fst (run host spawn os_mkdir os_makedirs decode self w) = inr tt ->
  exists out fs',
    spawn version_call w = Exited 0 out fs'
    /\ let dir := os_path_join (getcwd w) ["pybind11"] in
       log (snd (run host spawn os_mkdir os_makedirs decode self w))
       = log w
         ++ [{| call := version_call; returncode := Some 0 |}]
         ++ (if bool_decide (dir ∈ fs') then [] else fetched_log dir)
         ++ built_log host w self (extensions self).
Proof.
  rewrite run_run.
  destruct (spawn version_call w) as [|status out fs']; [discriminate|].
  cbn zeta. destruct (status =? 0) eqn:Hst; [|discriminate].
  apply Z.eqb_eq in Hst as ->.
  destruct (fst (check_version host decode out _)) as [e|[]]; [discriminate|].
  intros Hok. exists out, fs'. split; [reflexivity|].
  set (w1 := after_call w version_call (Some 0) fs') in *.
  revert Hok. unfold build_all, mbind, M_bind.
  destruct (install_dependencies_log self w1) as [Hin Hout].
  destruct (install_dependencies_environ self w1) as [Henv Hcwd].
  change (getcwd w1) with (getcwd w) in *.
  change (environ w1) with (environ w) in *.
  change (fs w1) with fs' in *.
  set (dir := os_path_join (getcwd w) ["pybind11"]) in *.
  assert (Hdeps : forall r w2,
             install_dependencies spawn os_mkdir self w1 = (inr r, w2) ->
             log w2 = log w1
                      ++ (if bool_decide (dir ∈ fs') then []
                          else fetched_log dir)).
  { intros r w2 Heq. destruct (decide (dir ∈ fs')) as [Hd|Hd].
    - rewrite bool_decide_eq_true_2 by exact Hd.
      rewrite (Hin Hd) in Heq. injection Heq as _ <-. now rewrite app_nil_r.
    - rewrite bool_decide_eq_false_2 by exact Hd.
      destruct (Hout Hd) as [_ Hsteps].
      rewrite Heq in *. cbn [fst snd] in *.
      destruct (mkdir_error dir (os_mkdir dir w1)) as [e0|];
        [discriminate Hsteps|].
      destruct Hsteps as (rest & Hlog & Hok1 & Hfail & Hnone).
      destruct (status_of (spawn (clone_call dir) (with_dir dir w1)))
        as [status|].
      + destruct (Z.eq_dec status 0) as [->|Hst].
        * destruct (Hok1 eq_refl) as (rc2 & -> & Hrc2 & Hnone2 & Hbad).
          destruct rc2 as [status2|]; [|discriminate (Hnone2 eq_refl)].
          destruct (Z.eq_dec status2 0) as [->|Hst2]; [exact Hlog|].
          discriminate (Hbad status2 eq_refl Hst2).
        * now destruct (Hfail status eq_refl Hst) as [_ [=]].
      + now destruct (Hnone eq_refl) as [_ [=]]. }
  destruct (install_dependencies spawn os_mkdir self w1) as [[e|r] w2];
    cbn [fst snd] in *; [discriminate|].
  intros Hloop.
  rewrite (for_each_success self (extensions self) w2 w) by congruence.
  rewrite (Hdeps r w2 eq_refl). subst w1. cbn [after_call log].
  now rewrite <- !app_assoc.
Qed.


(** ** The build directory *)

Lemma prepared_has_dir (self : build_ext) (w : World) :
  build_temp self ∈ fs (prepared self w).
Proof.
  unfold prepared.
  destruct (bool_decide (build_temp self ∈ fs w)) eqn:Hd.
  - now apply bool_decide_eq_true_1 in Hd.
  - apply elem_of_union. left. now apply elem_of_singleton.
Qed.

(** X9: [build_extension] never starts a program in a working directory
    that is missing.  Both calls run in [self.build_temp], which is made
    when absent, and nothing is run when it cannot be made; so, no program
    removing it, a [subprocess] that refuses a missing working directory
    behaves as one that does not look. *)
Theorem build_directory_exists (self : build_ext) (ext : CMakeExtension)
        (w : World) :
  (forall c w0 status out fs',
      spawn c w0 = Exited status out fs' ->
      build_temp self ∈ fs w0 -> build_temp self ∈ fs') ->
  build_extension host (cwd_checked spawn) os_makedirs self ext w
  = build_extension host spawn os_makedirs self ext w.
Proof.
  intros Hkeep. rewrite !build_extension_run. cbn zeta.
  destruct (directory_error os_makedirs (build_temp self) w) as [e|];
    [reflexivity|].
  pose proof (prepared_has_dir self w) as Hdir.
  unfold cwd_checked at 1. cbn [cwd configure_call].
  rewrite bool_decide_eq_true_2 by exact Hdir.
  destruct (spawn (configure_call host w self ext) (prepared self w))
    as [|status out fs1] eqn:Hconf; [reflexivity|].
  destruct (status =? 0); [|reflexivity].
  rewrite !check_call_run. unfold cwd_checked. cbn [cwd compile_call].
  rewrite bool_decide_eq_true_2; [reflexivity|].
  cbn [after_call fs]. eapply Hkeep; eauto.
Qed.

End More.

(** ** The environment and the argument lists *)

(** X10: of the environment, the argument lists read [ARCHFLAGS] only,
    and only on macOS: the compile arguments depend on neither the
    environment nor the output directory, and the configure arguments are
    the same in two environments off macOS, and on macOS when the two give
    [ARCHFLAGS] the same value. *)
Theorem args_environment_frame (host : Host) (e1 e2 : gmap string string)
        (debug : bool) (d1 d2 : string) :
  build_args host e1 debug d1 = build_args host e2 debug d2
  /\ (Py.startswith (sys_platform host) "darwin" = false ->
      cmake_args host e1 debug d1 = cmake_args host e2 debug d1)
  /\ (e1 !! "ARCHFLAGS" = e2 !! "ARCHFLAGS" ->
      cmake_args host e1 debug d1 = cmake_args host e2 debug d1).
Proof.
  unfold build_args, cmake_args. rewrite !args_unfold. cbn zeta.
  cbn [fst snd]. split; [reflexivity|]. split.
  - now intros ->.
  - now intros ->.
Qed.

(** ** Architecture names *)

Lemma span_all (p : ascii -> bool) (a rest : string) :
  all_chars p a = true ->
  rest = "" \/ (exists c r, rest = String c r /\ p c = false) ->
  Py.span p (a +:+ rest) = (a, rest).
Proof.
  intros Ha Hrest. induction a as [|c a IH].
  - rewrite app_nil_l.
    destruct Hrest as [->|(c & r & -> & Hc)]; [reflexivity|].
    cbn [Py.span]. now rewrite Hc.
  - rewrite app_cons. cbn [all_chars] in Ha.
    apply andb_true_iff in Ha as [Hc Ha].
    cbn [Py.span]. now rewrite Hc, (IH Ha).
Qed.

Lemma span_fst_all (p : ascii -> bool) (s : string) :
  all_chars p (fst (Py.span p s)) = true.
Proof.
  induction s as [|c s IH]; [reflexivity|]. cbn [Py.span].
  destruct (p c) eqn:Hc; [|reflexivity].
  destruct (Py.span p s) as [a b]. cbn [fst all_chars] in *.
  now rewrite Hc, IH.
Qed.

Lemma match_arch_is_arch (s g rest : string) :
  Re.match_arch s = Some (g, rest) -> is_arch g = true.
Proof.
  unfold Re.match_arch.
  destruct (Py.startswith s "-arch "); [|discriminate].
  pose proof (span_fst_all (fun c => negb (Py.isspace c)) (Py.drop 6 s))
    as Hall.
  destruct (Py.span _ (Py.drop 6 s)) as [g' rest']. cbn [fst] in Hall.
  destruct g' as [|c g']; [discriminate|]. intros [= <- <-].
  unfold is_arch. now rewrite Hall.
Qed.

Lemma findall_arch_from_sound (n : nat) (s : string) :
  Forall (fun a => is_arch a = true) (Re.findall_arch_from n s).
Proof.
  revert s. induction n as [|n IH]; intros s; [constructor|].
  cbn [Re.findall_arch_from].
  destruct (Re.match_arch s) as [[g rest]|] eqn:Hm.
  - constructor; [now apply match_arch_is_arch in Hm | apply IH].
  - destruct s; [constructor | apply IH].
Qed.

Lemma match_arch_flag (a rest : string) :
  is_arch a = true ->
  rest = "" \/ (exists r, rest = String " " r) ->
  Re.match_arch (("-arch " +:+ a) +:+ rest) = Some (a, rest).
Proof.
  unfold is_arch. intros [Hne Hall]%andb_true_iff Hrest.
  unfold Re.match_arch.
  change (Py.startswith (("-arch " +:+ a) +:+ rest) "-arch ") with true.
  change (Py.drop 6 (("-arch " +:+ a) +:+ rest)) with (a +:+ rest).
  cbv iota. rewrite (span_all _ a rest Hall).
  - destruct a; [discriminate | reflexivity].
  - destruct Hrest as [->|[r ->]]; [now left|].
    right. now exists " "%char, r.
Qed.

Lemma findall_archflags_from (l : list string) (n : nat) :
  Forall (fun a => is_arch a = true) l ->
  (String.length (archflags l) < n)%nat ->
  Re.findall_arch_from n (archflags l) = l.
Proof.
  intros Hl. revert n. induction Hl as [|a l Ha Hl IH]; intros n Hn.
  - destruct n; [lia | reflexivity].
  - destruct l as [|b l].
    + destruct n as [|n]; [lia|].
      change (archflags [a]) with ("-arch " +:+ a).
      rewrite <- (string_app_nil_r ("-arch " +:+ a)).
      cbn [Re.findall_arch_from].
      rewrite (match_arch_flag a "" Ha) by now left.
      destruct n; reflexivity.
    + change (archflags (a :: b :: l))
        with (("-arch " +:+ a) +:+ String " " (archflags (b :: l))) in *.
      rewrite !string_length_app in Hn. cbn [String.length] in Hn.
      destruct n as [|[|n]]; [lia | lia |].
      cbn [Re.findall_arch_from].
      rewrite (match_arch_flag a _ Ha) by (right; now eexists).
      change (Re.match_arch (String " " (archflags (b :: l)))) with
        (@None (string * string)).
      cbv iota. f_equal. apply IH. lia.
Qed.

(** X11: what [re.findall] makes of [ARCHFLAGS].  Every architecture it
    finds is a name, not empty and without white space; and from the usual
    form of the variable, [-arch] and a name for each architecture with
    single spaces between, it finds exactly the names, in order. *)
Theorem findall_arch_names (s : string) (archs : list string) :
  Forall (fun a => is_arch a = true) (Re.findall_arch s)
  /\ (Forall (fun a => is_arch a = true) archs ->
      Re.findall_arch (archflags archs) = archs).
Proof.
  split; [apply findall_arch_from_sound|].
  intros Harchs. apply findall_archflags_from; [exact Harchs | lia].
Qed.

(** X12: on macOS, with [ARCHFLAGS] in its usual form for one or more
    architecture names, the configure arguments are those of a build
    without [ARCHFLAGS] followed by one architecture directive, whose
    value is the names joined by semicolons. *)
Theorem macos_architecture_directive (host : Host)
        (environ : gmap string string) (debug : bool) (extdir : string)
        (archs : list string) :
  Py.startswith (sys_platform host) "darwin" = true ->
  archs <> [] ->
  Forall (fun a => is_arch a = true) archs ->
  environ !! "ARCHFLAGS" = Some (archflags archs) ->
  cmake_args host environ debug extdir
  = cmake_args host (delete "ARCHFLAGS" environ) debug extdir
    ++ ["-DCMAKE_OSX_ARCHITECTURES=" +:+ Py.join ";" archs].
Proof.
  intros Hdarwin Hne Harchs Hflags.
  unfold cmake_args. rewrite !args_unfold. cbn zeta. cbn [fst].
  rewrite Hdarwin, lookup_delete_eq, Hflags. cbn [default id].
  change (Re.findall_arch "") with (@nil string).
  unfold Re.findall_arch.
  rewrite (findall_archflags_from archs
             (S (String.length (archflags archs))) Harchs) by lia.
  rewrite bool_decide_eq_false_2 by exact Hne.
  rewrite bool_decide_eq_true_2 by reflexivity.
  cbn [andb negb]. now rewrite app_nil_r, <- !app_assoc.
Qed.

(** ** The version in the answer of CMake *)

Lemma digit_or_dot_not_space (c : ascii) :
  Re.digit_or_dot c = true -> Py.isspace c = false.
Proof.
  destruct c as [[] [] [] [] [] [] [] []]; intros H;
    (reflexivity || discriminate H).
Qed.

Lemma search_version_skip (c : ascii) (s : string) :
  Re.match_version (String c s) = None ->
  Re.search_version (String c s) = Re.search_version s.
Proof. intros H. cbn [Re.search_version]. now rewrite H. Qed.

Lemma match_version_group (s g : string) :
  Re.match_version s = Some g ->
  g <> "" /\ all_chars Re.digit_or_dot g = true.
Proof.
  unfold Re.match_version.
  destruct (Py.startswith s "version"); [|discriminate].
  destruct (Py.span Py.isspace (Py.drop 7 s)) as [ws s1].
  pose proof (span_fst_all Re.digit_or_dot s1) as Hall.
  destruct (Py.span Re.digit_or_dot s1) as [g' rest]. cbn [fst] in Hall.
  destruct g' as [|c g']; [discriminate|]. intros [= <-].
  split; [discriminate | exact Hall].
Qed.

(** X13: the version that [re.search] reads.  Whatever the text, a group
    that is found is a non-empty string of digits and dots; and in an
    answer of the form [cmake version], a space, such a string and then
    the end or any other character, the group is that string. *)
Theorem search_version_group (text g rest : string) :
  (Re.search_version text = Some g ->
   g <> "" /\ all_chars Re.digit_or_dot g = true)
  /\ (g <> "" -> all_chars Re.digit_or_dot g = true ->
      rest = "" \/ (exists c r, rest = String c r
                                /\ Re.digit_or_dot c = false) ->
      Re.search_version ("cmake version " +:+ g +:+ rest) = Some g).
Proof.
  split.
  - induction text as [|c text IH]; cbn [Re.search_version].
    + destruct (Re.match_version "") as [g'|] eqn:Hm; [|discriminate].
      intros [= <-]. now apply match_version_group in Hm.
    + destruct (Re.match_version (String c text)) as [g'|] eqn:Hm;
        [|exact IH].
      intros [= <-]. now apply match_version_group in Hm.
  - intros Hne Hall Hrest.
    change ("cmake version " +:+ g +:+ rest)
      with (String "c" (String "m" (String "a" (String "k" (String "e"
              (String " " ("version " +:+ g +:+ rest))))))).
    do 6 (rewrite search_version_skip by reflexivity).
    destruct g as [|c g]; [contradiction|].
    assert (Hc : Py.isspace c = false).
    { apply digit_or_dot_not_space. cbn [all_chars] in Hall.
      now apply andb_true_iff in Hall as [Hc _]. }
    assert (Hm : Re.match_version ("version " +:+ String c g +:+ rest)
                 = Some (String c g)).
    { unfold Re.match_version.
      change (Py.startswith ("version " +:+ String c g +:+ rest) "version")
        with true.
      change (Py.drop 7 ("version " +:+ String c g +:+ rest))
        with (String " " (String c (g +:+ rest))).
      cbv iota. cbn [Py.span]. change (Py.isspace " ") with true.
      cbv iota. rewrite Hc.
      change (String c (g +:+ rest)) with (String c g +:+ rest).
      now rewrite (span_all _ _ _ Hall Hrest). }
    change ("version " +:+ String c g +:+ rest)
      with (String "v" ("ersion " +:+ String c g +:+ rest)) in *.
    cbn [Re.search_version]. now rewrite Hm.
Qed.

(** ** The oldest CMake that Windows accepts *)

(** X14: which CMake passes on Windows.  When the answer of the version
    query gives a version with a major and a minor number, [run] raises
    the [RuntimeError] that asks for CMake 3.1.0 exactly when the major
    number is below 3, or is 3 with the minor number 0. *)
Theorem windows_minimum_version `{OsPath} (host : Host)
        (spawn : Call -> World -> Outcome)
        (os_mkdir os_makedirs : string -> World -> Mkdir)
        (decode : string -> option string)
        (self : build_ext) (w : World) (out : string) (fs' : gset string)
        (text g : string) (major minor : N) (rest : list N) :
  platform_system host = "Windows" ->
  spawn version_call w = Exited 0 out fs' ->
  decode out = Some text ->
  Re.search_version text = Some g ->
  version.parse g = Some (major :: minor :: rest) ->
  fst (run host spawn os_mkdir os_makedirs decode self w)
  = inl (RuntimeError too_old_message)
  <-> (major < 3 \/ (major = 3 /\ minor = 0))%N.
Proof.
  intros Hsys Hspawn Hdecode Hsearch Hparse.
  rewrite <- (lt_threshold major minor rest), run_run, Hspawn. cbn zeta.
  change (0 =? 0) with true. cbv iota.
  unfold check_version. apply String.eqb_eq in Hsys.
  rewrite Hsys, Hdecode, Hsearch, Hparse.
  change (version.parse "3.1.0") with (Some [3; 1; 0]%N). cbv beta iota.
  unfold raise, mret, M_ret.
  destruct (version.lt (major :: minor :: rest) [3; 1; 0]%N); cbn [fst].
  - now split.
  - split; [|discriminate].
    intros Hbuild. apply build_all_error in Hbuild. contradiction.
Qed.

(** ** The output directory, with [posixpath] *)

Lemma string_app_assoc (a b c : string) : (a +:+ b) +:+ c = a +:+ b +:+ c.
Proof.
  induction a as [|x a IH]; [reflexivity|]. now rewrite !app_cons, IH.
Qed.

Lemma split_app (c : ascii) (a b : string) :
  Py.split c (a +:+ String c b) = Py.split c a ++ Py.split c b.
Proof.
  induction a as [|x a IH].
  - rewrite app_nil_l. cbn [Py.split]. now rewrite Ascii.eqb_refl.
  - rewrite app_cons. cbn [Py.split]. rewrite IH.
    destruct (Ascii.eqb x c); [reflexivity|].
    pose proof (split_not_nil c a). now destruct (Py.split c a).
Qed.

Lemma endswith_char_app (x t : string) (c : ascii) :
  t <> "" -> Py.endswith_char (x +:+ t) c = Py.endswith_char t c.
Proof.
  intros Ht. induction x as [|a x IH]; [reflexivity|].
  rewrite app_cons. cbn [Py.endswith_char]. rewrite IH.
  destruct (x +:+ t) eqn:Hx; [|reflexivity].
  destruct x; [now rewrite app_nil_l in Hx | discriminate].
Qed.

Lemma endswith_char_spec (y : string) (c : ascii) :
  Py.endswith_char y c = true -> exists y', y = y' +:+ String c "".
Proof.
  induction y as [|a y IH]; [discriminate|]. cbn [Py.endswith_char].
  destruct y as [|b y].
  - intros ->%Ascii.eqb_eq. now exists "".
  - intros H. destruct (IH H) as [y' ->]. now exists (String a y').
Qed.

Lemma join1_relative (p b : string) :
  Py.startswith b "/" = false -> p <> "" ->
  exists x, posixpath.join1 p b = x +:+ "/" +:+ b.
Proof.
  intros Hb Hp. unfold posixpath.join1. rewrite Hb.
  destruct (String.eqb_spec p ""); [contradiction|]. cbn [orb].
  destruct (Py.endswith_char p posixpath.sep) eqn:Hend.
  - apply endswith_char_spec in Hend as [x ->]. exists x.
    now rewrite string_app_assoc.
  - now exists p.
Qed.

Lemma join_snoc (sep : string) (xs : list string) (a : string) :
  Py.join sep (xs ++ [a])
  = match xs with
    | [] => a
    | _ => Py.join sep xs +:+ sep +:+ a
    end.
Proof.
  induction xs as [|x xs IH]; [reflexivity|].
  destruct xs as [|y xs]; [reflexivity|].
  change (Py.join sep ((x :: y :: xs) ++ [a]))
    with (x +:+ sep +:+ Py.join sep ((y :: xs) ++ [a])).
  rewrite IH.
  change (Py.join sep (x :: y :: xs))
    with (x +:+ sep +:+ Py.join sep (y :: xs)).
  now rewrite !string_app_assoc.
Qed.

(** the last two components of a path survive [normpath] when they are
    ordinary names *)
Lemma normpath_tail (q y : string) :
  posixpath.isabs q = true ->
  q = y +:+ "/pyflagser/modules" ->
  exists parent, posixpath.normpath q = parent +:+ "/pyflagser/modules".
Proof.
  intros Habs ->. unfold posixpath.normpath.
  set (q := y +:+ "/pyflagser/modules") in *.
  assert (Hq : String.eqb q "" = false).
  { destruct q; [discriminate Habs | reflexivity]. }
  rewrite Hq.
  assert (Hi : posixpath.initial_slashes q = 1%nat
               \/ posixpath.initial_slashes q = 2%nat).
  { unfold posixpath.initial_slashes. unfold posixpath.isabs in Habs.
    rewrite Habs. destruct (_ && _); auto. }
  set (i := posixpath.initial_slashes q) in *. clearbody i.
  subst q.
  change (y +:+ "/pyflagser/modules")
    with (y +:+ String posixpath.sep "pyflagser/modules").
  rewrite !split_app, !fold_left_app.
  change (Py.split posixpath.sep "pyflagser/modules")
    with ["pyflagser"; "modules"].
  set (xs := fold_left (posixpath.norm_step i) (Py.split posixpath.sep y) []).
  change (fold_left (posixpath.norm_step i) ["pyflagser"; "modules"] xs)
    with ((xs ++ ["pyflagser"]) ++ ["modules"]).
  clearbody xs.
  rewrite !(join_snoc "/" (xs ++ ["pyflagser"]) "modules").
  assert (Hpath : exists parent,
             posixpath.slashes i +:+ Py.join "/" (xs ++ ["pyflagser"])
                                 +:+ "/" +:+ "modules"
             = parent +:+ "/pyflagser/modules").
  { rewrite join_snoc. destruct xs as [|x xs].
    - destruct Hi as [-> | ->]; [now exists "" | now exists "/"].
    - exists (posixpath.slashes i +:+ Py.join "/" (x :: xs)).
      now rewrite !string_app_assoc. }
  destruct Hpath as [parent Hparent].
  exists parent.
  assert (Hform : posixpath.slashes i
                  +:+ match (xs ++ ["pyflagser"])%list with
                      | [] => "modules"
                      | _ :: _ => Py.join "/" (xs ++ ["pyflagser"])
                                  +:+ "/" +:+ "modules"
                      end
                  = parent +:+ "/pyflagser/modules").
  { rewrite <- Hparent. now destruct xs. }
  rewrite Hform.
  destruct parent; reflexivity.
Qed.

Lemma extdir_form (cwd d : string) :
  posixpath.isabs cwd = true ->
  let p := posixpath.join d ["pyflagser"; "modules"] in
  let q := if posixpath.isabs p then p else posixpath.join cwd [p] in
  posixpath.isabs q = true /\ exists y, q = y +:+ "/pyflagser/modules".
Proof.
  intros Hcwd. cbn zeta.
  change (posixpath.join d ["pyflagser"; "modules"])
    with (posixpath.join1 (posixpath.join1 d "pyflagser") "modules").
  assert (H1 : exists x, posixpath.join1 d "pyflagser" = x +:+ "pyflagser"
                         /\ (x = "" \/ exists x', x = x' +:+ "/")).
  { destruct d as [|c d].
    - exists "". split; [reflexivity | now left].
    - destruct (join1_relative (String c d) "pyflagser" eq_refl)
        as [x Hx]; [discriminate|].
      exists (x +:+ "/"). rewrite Hx, string_app_assoc.
      split; [reflexivity | right; now exists x]. }
  destruct H1 as (x & Hp1 & Hx). rewrite Hp1.
  assert (Hp2 : posixpath.join1 (x +:+ "pyflagser") "modules"
                = x +:+ "pyflagser/modules").
  { unfold posixpath.join1. change (Py.startswith "modules" "/") with false.
    cbv iota. rewrite endswith_char_app by discriminate.
    change (Py.endswith_char "pyflagser" posixpath.sep) with false.
    destruct (String.eqb_spec (x +:+ "pyflagser") "") as [Hempty|_].
    - destruct x; discriminate Hempty.
    - cbn [orb]. now rewrite string_app_assoc. }
  rewrite Hp2.
  destruct (posixpath.isabs (x +:+ "pyflagser/modules")) eqn:Habs.
  - split; [exact Habs|].
    destruct Hx as [-> | [x' ->]]; [discriminate Habs|].
    exists x'. now rewrite string_app_assoc.
  - change (posixpath.join cwd [x +:+ "pyflagser/modules"])
      with (posixpath.join1 cwd (x +:+ "pyflagser/modules")).
    split; [now apply join1_isabs|].
    destruct (join1_relative cwd (x +:+ "pyflagser/modules") Habs)
      as [z Hz]; [intros ->; discriminate Hcwd|].
    rewrite Hz. destruct Hx as [-> | [x' ->]].
    + now exists z.
    + exists (z +:+ "/" +:+ x'). now rewrite !string_app_assoc.
Qed.

(** X15: where the module is built.  With [posixpath] and an absolute
    current directory, the output directory handed to CMake is an absolute
    path that ends in the two components [pyflagser/modules], whatever
    path [get_ext_fullpath] gives for the target. *)
Theorem extdir_in_package (cwd : string) (self : build_ext)
        (ext : CMakeExtension) :
  posixpath.isabs cwd = true ->
  posixpath.isabs (extdir cwd self ext) = true
  /\ exists parent, extdir cwd self ext = parent +:+ "/pyflagser/modules".
Proof.
  intros Hcwd. unfold extdir.
  cbn [os_path_abspath os_path_join os_path_dirname posix_os_path].
  split; [now apply abspath_isabs|].
  unfold posixpath.abspath.
  destruct (extdir_form cwd
              (posixpath.dirname (get_ext_fullpath self (name ext))) Hcwd)
    as (Habs & y & Hy).
  now apply (normpath_tail _ y).
Qed.

(** ** The further properties on the sample hosts *)


(** a clone that exits with status 128 in the sample world, and the call
    after it *)
Lemma failed_fetch_is_masked_witness :
  let first := install_dependencies (spawn_exit 128 "") mkdir_made
                                    (sample_build "/repo") sample_world in
  fst first = inl (CalledProcessError 128 (argv (clone_call "/repo/pybind11")))
  /\ install_dependencies (spawn_exit 128 "") mkdir_made
                          (sample_build "/repo") (snd first)
     = (inr (Some 0), snd first).
Proof.
  cbn zeta.
  assert (Hmissing : os_path_join (getcwd sample_world) ["pybind11"]
                     ∉ fs sample_world).
  { intros Hin.
    change (fs sample_world) with ({["/repo"]} : gset string) in Hin.
    apply elem_of_singleton in Hin. discriminate Hin. }
  assert (Hkeep : forall c w0 st out fs',
             spawn_exit 128 "" c w0 = Exited st out fs' ->
             os_path_join (getcwd sample_world) ["pybind11"] ∈ fs w0 ->
             os_path_join (getcwd sample_world) ["pybind11"] ∈ fs').
  { intros c w0 st out fs' [= _ _ <-] Hd. exact Hd. }
  assert (Hstatus : (128 <> 0)%Z) by discriminate.
  exact (failed_fetch_is_masked (spawn_exit 128 "") mkdir_made
           (sample_build "/repo") sample_world 128 Hmissing eq_refl eq_refl
           Hstatus Hkeep).
Defined.

(** a CMake on Windows that answers nothing *)
Lemma run_unreadable_version_witness :
  run (windows_host 64) (spawn_exit 0 "") mkdir_made mkdir_made decode_ascii
      (sample_build "C:\repo") sample_world
  = (inl AttributeError,
     after_call sample_world version_call (Some 0) (fs sample_world)).
Proof.
  destruct (run_unreadable_version (windows_host 64) (spawn_exit 0 "")
              mkdir_made mkdir_made decode_ascii
              (sample_build "C:\repo") sample_world ""
              (fs sample_world) eq_refl eq_refl) as (_ & Hnone & _).
  apply (Hnone "" eq_refl).
  intros pre post Heq. destruct pre; discriminate Heq.
Defined.

(** the programs of a run on the sample Linux host where all succeed *)
Lemma run_success_trace_witness :
  map (fun e => argv (call e))
      (log (snd (run linux_host (spawn_exit 0 "cmake version 3.22.1")
                     mkdir_made mkdir_made decode_ascii
                     (sample_build "/repo") sample_world)))
  = [["cmake"; "--version"];
     ["git"; "clone"; "https://github.com/pybind/pybind11.git";
      "/repo/pybind11"];
     ["git"; "submodule"; "update"; "--init"; "--recursive"];
     ["cmake"; "/repo";
      "-DCMAKE_LIBRARY_OUTPUT_DIRECTORY=/repo/build/lib/pyflagser/modules";
      "-DPYTHON_EXECUTABLE=/usr/bin/python3"; "-DCMAKE_BUILD_TYPE=Release"];
     ["cmake"; "--build"; "."; "--config"; "Release"; "--"; "-j2"]].
Proof.
  destruct (run_success_trace linux_host
              (spawn_exit 0 "cmake version 3.22.1") mkdir_made mkdir_made
              decode_ascii (sample_build "/repo") sample_world)
    as (out & fs' & Hspawn & Hlog); [vm_compute; reflexivity|].
  injection Hspawn as <- <-. cbn zeta in Hlog. rewrite Hlog.
  vm_compute. reflexivity.
Defined.


(** a build in the sample world, whose build directory is missing *)
Lemma build_directory_exists_witness :
  build_extension linux_host (cwd_checked (spawn_exit 0 "")) mkdir_made
                  (sample_build "/repo") pyflagser_ext sample_world
  = build_extension linux_host (spawn_exit 0 "") mkdir_made
                    (sample_build "/repo") pyflagser_ext sample_world.
Proof.
  apply build_directory_exists.
  intros c w0 st out fs' [= _ _ <-] Hd. exact Hd.
Defined.

(** two architectures *)
Lemma findall_arch_names_witness :
  archflags ["x86_64"; "arm64"] = "-arch x86_64 -arch arm64"
  /\ Re.findall_arch (archflags ["x86_64"; "arm64"]) = ["x86_64"; "arm64"].
Proof.
  split; [reflexivity|].
  destruct (findall_arch_names "" ["x86_64"; "arm64"]) as [_ Hround].
  apply Hround. repeat constructor.
Defined.

(** three architectures on the sample macOS host *)
Lemma macos_architecture_directive_witness :
  cmake_args macos_host {["ARCHFLAGS" := archflags ["x86_64"; "arm64"; "i386"]]}
             false "/out"
  = ["-DCMAKE_LIBRARY_OUTPUT_DIRECTORY=/out";
     "-DPYTHON_EXECUTABLE=/usr/bin/python3"; "-DCMAKE_BUILD_TYPE=Release";
     "-DCMAKE_OSX_ARCHITECTURES=x86_64;arm64;i386"].
Proof.
  rewrite (macos_architecture_directive macos_host _ false "/out"
             ["x86_64"; "arm64"; "i386"] eq_refl).
  - reflexivity.
  - discriminate.
  - repeat constructor.
  - apply lookup_singleton_eq.
Defined.

(** the first line of an answer of CMake 3.22.1 *)
Lemma search_version_group_witness :
  Re.search_version
    ("cmake version " +:+ "3.22.1" +:+ String (ascii_of_nat 10) "CMake suite")
  = Some "3.22.1".
Proof.
  destruct (search_version_group "" "3.22.1"
              (String (ascii_of_nat 10) "CMake suite")) as [_ Hcmake].
  apply Hcmake; [discriminate | reflexivity |].
  right. now eexists _, _.
Defined.

(** CMake 3.0.2 on Windows *)
Lemma windows_minimum_version_witness :
  fst (run (windows_host 64) (spawn_exit 0 "cmake version 3.0.2")
           mkdir_made mkdir_made decode_ascii (sample_build "C:\repo")
           sample_world)
  = inl (RuntimeError too_old_message).
Proof.
  apply (windows_minimum_version (windows_host 64)
           (spawn_exit 0 "cmake version 3.0.2") mkdir_made mkdir_made
           decode_ascii
           (sample_build "C:\repo") sample_world "cmake version 3.0.2"
           (fs sample_world) "cmake version 3.0.2" "3.0.2" 3%N 0%N [2%N]
           eq_refl eq_refl eq_refl eq_refl eq_refl).
  right. now split.
Defined.

(** the output directory of the sample build *)
Lemma extdir_in_package_witness :
  posixpath.isabs (extdir "/repo" (sample_build "/repo") pyflagser_ext) = true
  /\ extdir "/repo" (sample_build "/repo") pyflagser_ext
     = "/repo/build/lib" +:+ "/pyflagser/modules".
Proof.
  destruct (extdir_in_package "/repo" (sample_build "/repo") pyflagser_ext
              eq_refl) as [Habs _].
  split; [exact Habs | reflexivity].
Defined.
